(** * Online game server (WebSocket and UDP transports, SQLite persistence)

    A shallow embedding of the Go sources [message.go], [client.go],
    [server.go], [game.go], [udp_server.go] and [database.go], and the
    properties of the realtime runtime proved about it.

    Conventions of the embedding.
    - [uint32] and [int64] values are integers ([Z]); the wrap-around of
      [uint32] arithmetic is written out with [wrap32].
    - [uuid.UUID] (a [[16]byte] array) is the 128-bit big-endian number the
      array spells.
    - [float32] and [float64] values are binary64 floats; a [float32] is a
      binary64 value that is representable in binary32, and the conversion
      [float32(x)] rounds to binary32.
    - [time.Time] is a number of nanoseconds since the Unix epoch.  A
      handler reads the clock once: the instant is an explicit argument.
    - Go maps are finite maps ([gmap]); [range] over a map visits the
      entries in the order of [map_to_list] (Go fixes no order).
    - Pointers to clients are the keys of the table that holds the client:
      a method call on a client updates the entry of the table.
    - Mutexes are not part of the data.  Every handler and every timer
      tick runs as one atomic step, and runs to its end: a handler that
      asks for a lock its caller holds ([handleHeartbeat] calls
      [broadcastReliable] under the write lock of the server,
      [HandleMessage] calls [broadcastGameState] under the write lock of
      the game state) is taken to go on.
    - The socket is the list of datagrams a step hands to [WriteToUDP];
      [ResolveUDPAddr] succeeds on the keys of the client table, which are
      printed addresses.  The outbound channel of a stream client is the
      queue of frames in it and a closed flag.
    - The SQLite store is a record of tables, and its statements succeed.
    - [encoding/json] is modelled at the level of JSON documents: the
      bytes of an encoding are the document they spell, and marshalling
      succeeds (it fails in Go on a float that is not finite). *)

From Stdlib Require Import ZArith NArith String Ascii List Floats Lia.
From Stdlib Require Import DecimalString.
From stdpp Require Import gmap strings list fin_maps.

Local Open Scope string_scope.
Local Open Scope Z_scope.

Set Warnings "-register-all".

(** ** Basic types *)

Definition Time := Z.

Definition Second : Z := 1000000000.
Definition Millisecond : Z := 1000000.

(** [t.Unix()] and [t.UnixMilli()] *)
Definition Unix (t : Time) : Z := t / Second.
Definition UnixMilli (t : Time) : Z := t / Millisecond.

Definition wrap32 (z : Z) : Z := z mod 2 ^ 32.

Definition is_uint32 (z : Z) : Prop := 0 <= z < 2 ^ 32.


(** [float32(x)] for a [float64] [x]: round to nearest-even in binary32
    (24 bits of precision, maximal exponent 128). *)
Definition float32 (x : float) : float :=
  match Prim2SF x with
  | S754_finite s m e => SF2Prim (binary_round 24 128 s m e)
  | _ => x
  end.


(** ** uuid.UUID *)

Definition UUID := N.

Definition hexdigits : list ascii :=
  list_ascii_of_string "0123456789abcdef".

Definition hexdigit (d : N) : ascii := nth (N.to_nat d) hexdigits "0"%char.

(** byte [i] (0 is the first) of the array *)
Definition uuid_byte (u : UUID) (i : N) : N :=
  N.land (N.shiftr u (8 * (15 - i))) 255.

Definition hexbyte (b : N) : string :=
  String (hexdigit (N.shiftr b 4)) (String (hexdigit (N.land b 15)) "").

Definition hexbytes (u : UUID) (from : N) (n : nat) : string :=
  fold_right (fun i acc => hexbyte (uuid_byte u i) +:+ acc) ""
    (map (fun k => (from + N.of_nat k)%N) (seq 0 n)).

(** [u.String()]: xxxxxxxx-xxxx-xxxx-xxxx-xxxxxxxxxxxx *)
Definition uuid_String (u : UUID) : string :=
  hexbytes u 0 4 +:+ "-" +:+ hexbytes u 4 2 +:+ "-" +:+ hexbytes u 6 2
  +:+ "-" +:+ hexbytes u 8 2 +:+ "-" +:+ hexbytes u 10 6.

Definition xval (c : ascii) : option N :=
  let n := N_of_ascii c in
  if ((48 <=? n) && (n <=? 57))%N then Some (n - 48)%N
  else if ((97 <=? n) && (n <=? 102))%N then Some (n - 87)%N
  else if ((65 <=? n) && (n <=? 70))%N then Some (n - 55)%N
  else None.

(** hexadecimal digits to a number, most significant first *)
Fixpoint xtoN (acc : N) (s : list ascii) : option N :=
  match s with
  | [] => Some acc
  | c :: s' =>
      match xval c with
      | Some d => xtoN (16 * acc + d)%N s'
      | None => None
      end
  end.

Definition lower (c : ascii) : ascii :=
  let n := N_of_ascii c in
  if ((65 <=? n) && (n <=? 90))%N then ascii_of_N (n + 32) else c.

Definition EqualFold (a b : string) : bool :=
  bool_decide (map lower (list_ascii_of_string a)
               = map lower (list_ascii_of_string b)).

(** [uuid.Parse] of the uuid package: the canonical 36-character form, the
    same with a [urn:uuid:] prefix or inside braces, or 32 bare digits. *)
Definition parse_canonical (s : list ascii) : option UUID :=
  if bool_decide (nth 8 s "0"%char = "-"%char /\ nth 13 s "0"%char = "-"%char
                  /\ nth 18 s "0"%char = "-"%char /\ nth 23 s "0"%char = "-"%char)
  then xtoN 0 (firstn 8 s ++ firstn 4 (skipn 9 s) ++ firstn 4 (skipn 14 s)
               ++ firstn 4 (skipn 19 s) ++ firstn 12 (skipn 24 s))
  else None.

Definition uuid_Parse (s : string) : option UUID :=
  let l := list_ascii_of_string s in
  match length l with
  | 36%nat => parse_canonical l
  | 45%nat =>
      if EqualFold (string_of_list_ascii (firstn 9 l)) "urn:uuid:"
      then parse_canonical (skipn 9 l) else None
  | 38%nat => parse_canonical (skipn 1 l)
  | 32%nat => xtoN 0 l
  | _ => None
  end.

(** [s[:n]] on a string of at least [n] bytes *)
Definition prefix_bytes (n : nat) (s : string) : string := substring 0 n s.

(** ** Messages (message.go) *)

Module Player.
Record t := mk {
  ID : UUID;
  Name : string;
  X : float;
  Y : float;
  Health : float;
  Score : Z
}.
End Player.

Definition NewPlayer (id : UUID) (name : string) : Player.t :=
  Player.mk id name 0%float 0%float 100%float 0.

(** The dynamic values [json.Unmarshal] stores in an [interface{}]:
    [nil], [bool], [float64], [string], [[]interface{}] and
    [map[string]interface{}]. *)
Inductive GoValue :=
| GNil
| GBool (b : bool)
| GFloat64 (f : float)
| GString (s : string)
| GSlice (l : list GoValue)
| GMap (m : gmap string GoValue).

(** What the field [Data interface{}] of a message holds: one of the
    payload structs when the server built the message, an untyped value
    when the message was decoded from the wire. *)
Inductive any :=
| PlayerJoinData (PlayerID : UUID) (Name : string)
| PlayerLeaveData (PlayerID : UUID)
| PlayerMoveData (PlayerID : UUID) (X Y : float)
| PlayerActionData (PlayerID : UUID) (Action : string) (Data : GoValue)
| GameStateData (Players : list Player.t) (Timestamp : Z)
| ChatData (PlayerID : UUID) (Message : string)
| ErrorData (Message : string)
| HeartbeatData (PlayerID : UUID) (Sequence : Z)
| AckData (Sequence : Z)
| Untyped (v : GoValue).

Module GameMessage.
Record t := mk { Type_ : string; Data : any }.
End GameMessage.

Definition NewPlayerJoinMessage (playerID : UUID) (name : string) :=
  GameMessage.mk "PlayerJoin" (PlayerJoinData playerID name).

Definition NewPlayerLeaveMessage (playerID : UUID) :=
  GameMessage.mk "PlayerLeave" (PlayerLeaveData playerID).

Definition NewPlayerMoveMessage (playerID : UUID) (x y : float) :=
  GameMessage.mk "PlayerMove" (PlayerMoveData playerID x y).


Definition NewGameStateMessage (now : Time) (players : list Player.t) :=
  GameMessage.mk "GameState" (GameStateData players (Unix now)).

Definition NewChatMessage (playerID : UUID) (message : string) :=
  GameMessage.mk "Chat" (ChatData playerID message).


Definition NewHeartbeatMessage (playerID : UUID) (sequence : Z) :=
  GameMessage.mk "Heartbeat" (HeartbeatData playerID sequence).

Definition NewAckMessage (sequence : Z) :=
  GameMessage.mk "Ack" (AckData sequence).

(** ** The JSON codec

    A JSON document.  Number literals are kept apart: [JInt] is a literal
    without fraction or exponent, [JFloat f] the literal [encoding/json]
    prints for the float [f].  Decoding [JFloat f] gives [f] back: the
    decimal rounding of floats is outside this model. *)
Inductive json :=
| JNull
| JBool (b : bool)
| JInt (z : Z)
| JFloat (f : float)
| JString (s : string)
| JArray (l : list json)
| JObject (members : list (string * json)).

(** [json.Marshal] of an untyped value *)
Fixpoint marshal_value (v : GoValue) : json :=
  match v with
  | GNil => JNull
  | GBool b => JBool b
  | GFloat64 f => JFloat f
  | GString s => JString s
  | GSlice l => JArray (map marshal_value l)
  | GMap m => JObject (map_fold (fun k x acc => (k, marshal_value x) :: acc) [] m)
  end.

Definition marshal_Player (p : Player.t) : json :=
  JObject [("id", JString (uuid_String (Player.ID p)));
           ("name", JString (Player.Name p));
           ("x", JFloat (Player.X p));
           ("y", JFloat (Player.Y p));
           ("health", JFloat (Player.Health p));
           ("score", JInt (Player.Score p))].

(** a nil slice is printed [null]; the server builds its slices with
    [append] from a nil slice, so an empty list is the nil slice *)
Definition marshal_Players (l : list Player.t) : json :=
  match l with
  | [] => JNull
  | _ => JArray (map marshal_Player l)
  end.

Definition marshal_any (d : any) : json :=
  match d with
  | PlayerJoinData id name =>
      JObject [("player_id", JString (uuid_String id)); ("name", JString name)]
  | PlayerLeaveData id => JObject [("player_id", JString (uuid_String id))]
  | PlayerMoveData id x y =>
      JObject [("player_id", JString (uuid_String id)); ("x", JFloat x);
               ("y", JFloat y)]
  | PlayerActionData id action data =>
      JObject [("player_id", JString (uuid_String id));
               ("action", JString action); ("data", marshal_value data)]
  | GameStateData players ts =>
      JObject [("players", marshal_Players players); ("timestamp", JInt ts)]
  | ChatData id message =>
      JObject [("player_id", JString (uuid_String id));
               ("message", JString message)]
  | ErrorData message => JObject [("message", JString message)]
  | HeartbeatData id sequence =>
      JObject [("player_id", JString (uuid_String id));
               ("sequence", JInt sequence)]
  | AckData sequence => JObject [("sequence", JInt sequence)]
  | Untyped v => marshal_value v
  end.

Definition marshal_GameMessage (m : GameMessage.t) : json :=
  JObject [("type", JString (GameMessage.Type_ m));
           ("data", marshal_any (GameMessage.Data m))].

Module UDPPacket.
Record t := mk {
  Sequence : Z;
  Timestamp : Z;
  Message : GameMessage.t;
  Reliable : bool
}.

End UDPPacket.

Definition NewUDPPacket (now : Time) (sequence : Z) (message : GameMessage.t)
    (reliable : bool) : UDPPacket.t :=
  UDPPacket.mk sequence (UnixMilli now) message reliable.










(** ** The persistence gateway (database.go, migrations/001_initial.sql)

    Rows carry the columns of the schema.  SQLite does not enforce the
    foreign keys of the schema unless asked to, and the gateway never asks:
    every statement below succeeds.  [datetime('now')] is the instant of
    the call, in seconds. *)

Module DBPlayer.
Record t := mk {
  ID : string;
  Name : string;
  X : float;
  Y : float;
  Health : float;
  Score : Z;
  CreatedAt : Z;
  UpdatedAt : Z;
  LastSeenAt : Z
}.
End DBPlayer.

Module GameSession.
Record t := mk {
  ID : Z;
  PlayerID : string;
  SessionStart : Z;
  SessionEnd : option Z;
  Protocol : string;
  ClientIP : option string
}.
End GameSession.

Module PlayerEvent.
Record t := mk {
  ID : Z;
  PlayerID : string;
  SessionID : option Z;
  EventType : string;
  EventData : option json;
  Timestamp : Z
}.
End PlayerEvent.

Module ChatMessage.
Record t := mk {
  ID : Z;
  PlayerID : string;
  SessionID : option Z;
  Message : string;
  Timestamp : Z
}.
End ChatMessage.

Module Database.
(** the tables; [game_sessions] is keyed by its primary key, the two
    logs grow at the end; the [seq_] fields are the AUTOINCREMENT
    counters *)
Record t := mk {
  players : gmap string DBPlayer.t;
  game_sessions : gmap Z GameSession.t;
  seq_game_sessions : Z;
  player_events : list PlayerEvent.t;
  seq_player_events : Z;
  chat_messages : list ChatMessage.t;
  seq_chat_messages : Z
}.

Definition empty : t := mk ∅ ∅ 0 [] 0 [] 0.

Definition with_players (f : gmap string DBPlayer.t -> gmap string DBPlayer.t)
    (d : t) : t :=
  mk (f (players d)) (game_sessions d) (seq_game_sessions d)
     (player_events d) (seq_player_events d)
     (chat_messages d) (seq_chat_messages d).

Definition with_game_sessions
    (f : gmap Z GameSession.t -> gmap Z GameSession.t) (d : t) : t :=
  mk (players d) (f (game_sessions d)) (seq_game_sessions d)
     (player_events d) (seq_player_events d)
     (chat_messages d) (seq_chat_messages d).

Definition datetime_now (now : Time) : Z := Unix now.

(** INSERT INTO players ... ON CONFLICT(id) DO UPDATE SET ... *)
Definition CreateOrUpdatePlayer (now : Time) (player : Player.t) (d : t) : t :=
  let id := uuid_String (Player.ID player) in
  let created :=
    match players d !! id with
    | Some row => DBPlayer.CreatedAt row
    | None => datetime_now now
    end in
  with_players
    (insert id
       (DBPlayer.mk id (Player.Name player) (Player.X player)
          (Player.Y player) (Player.Health player) (Player.Score player)
          created (datetime_now now) (datetime_now now))) d.

(** UPDATE players SET x = ?, y = ?, updated_at, last_seen_at WHERE id = ? *)
Definition UpdatePlayerPosition (now : Time) (playerID : UUID) (x y : float)
    (d : t) : t :=
  with_players
    (alter (fun r =>
              DBPlayer.mk (DBPlayer.ID r) (DBPlayer.Name r) x y
                (DBPlayer.Health r) (DBPlayer.Score r) (DBPlayer.CreatedAt r)
                (datetime_now now) (datetime_now now))
       (uuid_String playerID)) d.

(** UPDATE players SET score = ?, updated_at, last_seen_at WHERE id = ? *)
Definition UpdatePlayerScore (now : Time) (playerID : UUID) (score : Z)
    (d : t) : t :=
  with_players
    (alter (fun r =>
              DBPlayer.mk (DBPlayer.ID r) (DBPlayer.Name r) (DBPlayer.X r)
                (DBPlayer.Y r) (DBPlayer.Health r) score (DBPlayer.CreatedAt r)
                (datetime_now now) (datetime_now now))
       (uuid_String playerID)) d.


(** INSERT INTO game_sessions (player_id, protocol, client_ip); the
    result is the new row id *)
Definition CreateSession (now : Time) (playerID : UUID) (protocol : string)
    (clientIP : option string) (d : t) : Z * t :=
  let id := seq_game_sessions d + 1 in
  (id,
   mk (players d)
      (<[id := GameSession.mk id (uuid_String playerID) (datetime_now now)
                 None protocol clientIP]> (game_sessions d))
      id (player_events d) (seq_player_events d)
      (chat_messages d) (seq_chat_messages d)).

(** UPDATE game_sessions SET session_end = datetime('now')
    WHERE id = ? AND session_end IS NULL *)
Definition end_row (now : Time) (r : GameSession.t) : GameSession.t :=
  match GameSession.SessionEnd r with
  | None =>
      GameSession.mk (GameSession.ID r) (GameSession.PlayerID r)
        (GameSession.SessionStart r) (Some (datetime_now now))
        (GameSession.Protocol r) (GameSession.ClientIP r)
  | Some _ => r
  end.

(** the result is the error of the call: [None] is Go's [nil] *)
Definition EndSession (now : Time) (sessionID : Z) (d : t) : option string * t :=
  (None, with_game_sessions (alter (end_row now) sessionID) d).

(** INSERT INTO player_events (player_id, session_id, event_type,
    event_data); the data is the JSON of the message, or NULL *)
Definition LogEvent (now : Time) (playerID : UUID) (sessionID : option Z)
    (eventType : string) (eventData : option GameMessage.t) (d : t) : t :=
  let id := seq_player_events d + 1 in
  mk (players d) (game_sessions d) (seq_game_sessions d)
     (player_events d ++
        [PlayerEvent.mk id (uuid_String playerID) sessionID eventType
           (marshal_GameMessage <$> eventData) (datetime_now now)])
     id (chat_messages d) (seq_chat_messages d).

(** INSERT INTO chat_messages (player_id, session_id, message) *)
Definition SaveChatMessage (now : Time) (playerID : UUID)
    (sessionID : option Z) (message : string) (d : t) : t :=
  let id := seq_chat_messages d + 1 in
  mk (players d) (game_sessions d) (seq_game_sessions d)
     (player_events d) (seq_player_events d)
     (chat_messages d ++
        [ChatMessage.mk id (uuid_String playerID) sessionID message
           (datetime_now now)])
     id.


Definition active (r : GameSession.t) : bool :=
  match GameSession.SessionEnd r with
  | None => true
  | Some _ => false
  end.

(** SELECT COUNT( * ) FROM game_sessions WHERE session_end IS NULL *)
Definition GetActiveSessionsCount (d : t) : Z :=
  Z.of_nat (size (filter (fun kr : Z * GameSession.t => active kr.2 = true)
                    (game_sessions d))).

(** the WHERE clause of [CleanupOldSessions]: session_end IS NULL AND
    datetime(session_start, '+' || ? || ' hours') < datetime('now'); with
    a negative number the modifier reads '+-N hours', which SQLite does not
    accept, and no row matches *)
Definition stale (now : Time) (hours : Z) (r : GameSession.t) : bool :=
  active r && (0 <=? hours)
  && (GameSession.SessionStart r + hours * 3600 <? datetime_now now).

(** UPDATE game_sessions SET session_end = datetime('now') WHERE ...; the
    result is the number of rows affected *)
Definition CleanupOldSessions (now : Time) (hours : Z) (d : t) : Z * t :=
  (Z.of_nat (size (filter (fun kr : Z * GameSession.t => stale now hours kr.2 = true)
                     (game_sessions d))),
   with_game_sessions
     (fmap (fun r => if stale now hours r then end_row now r else r)) d).
End Database.

(** ** Stream clients (client.go) *)

Module Client.
(** [Send chan []byte], made with capacity 256: the frames waiting for
    the writer goroutine and whether the channel has been closed *)
Record chan := mkchan { queue : list json; closed : bool }.

Record t := mk {
  ID : UUID;
  Addr : string;
  Player : Player.t;
  Send : chan
}.

Definition capacity : nat := 256.

(** the three ways [SendMessage] ends: [nil], [websocket.ErrCloseSent]
    after closing a full queue, or the panic of a send on a closed
    channel *)
Inductive outcome := sent | ErrCloseSent | panic.

Definition SendMessage (message : GameMessage.t) (c : t) : outcome * t :=
  let data := marshal_GameMessage message in
  if closed (Send c) then (panic, c)
  else if (length (queue (Send c)) <? capacity)%nat
  then (sent, mk (ID c) (Addr c) (Player c)
                 (mkchan (queue (Send c) ++ [data]) false))
  else (ErrCloseSent, mk (ID c) (Addr c) (Player c)
                         (mkchan (queue (Send c)) true)).

Definition with_Player (f : Player.t -> Player.t) (c : t) : t :=
  mk (ID c) (Addr c) (f (Player c)) (Send c).

Definition UpdatePosition (x y : float) (c : t) : t :=
  with_Player (fun p => Player.mk (Player.ID p) (Player.Name p) x y
                          (Player.Health p) (Player.Score p)) c.

Definition UpdateHealth (health : float) (c : t) : t :=
  with_Player (fun p => Player.mk (Player.ID p) (Player.Name p) (Player.X p)
                          (Player.Y p) health (Player.Score p)) c.

Definition AddScore (points : Z) (c : t) : t :=
  with_Player (fun p => Player.mk (Player.ID p) (Player.Name p) (Player.X p)
                          (Player.Y p) (Player.Health p)
                          (wrap32 (Player.Score p + points))) c.
End Client.

Definition NewClient (id : UUID) (addr : string) (name : string) : Client.t :=
  Client.mk id addr (NewPlayer id name) (Client.mkchan [] false).

(** ** The game state of the stream transport (game.go) *)

Module GameState.
Record t := mk {
  clients : gmap UUID Client.t;
  database : Database.t
}.

Definition with_database (f : Database.t -> Database.t) (gs : t) : t :=
  mk (clients gs) (f (database gs)).

(** The effect of an operation: the new state and the calls of
    [SendMessage] it made, in order; [None] when the goroutine
    panicked. *)
Definition sends := list (UUID * GameMessage.t).
Definition eff := option (t * sends).

Definition ret (gs : t) : eff := Some (gs, []).

Definition bind (e : eff) (k : t -> eff) : eff :=
  match e with
  | None => None
  | Some (gs, o) =>
      match k gs with
      | None => None
      | Some (gs', o') => Some (gs', (o ++ o')%list)
      end
  end.

(** [client.SendMessage(message)] on the roster entry [id]; an error is
    logged and the caller goes on *)
Definition send (id : UUID) (message : GameMessage.t) (gs : t) : eff :=
  match clients gs !! id with
  | None => ret gs
  | Some c =>
      match Client.SendMessage message c with
      | (Client.panic, _) => None
      | (_, c') => Some (mk (<[id := c']> (clients gs)) (database gs),
                         [(id, message)])
      end
  end.

Definition excluded (exclude : option UUID) (id : UUID) : bool :=
  match exclude with
  | None => false
  | Some e => bool_decide (e = id)
  end.

Fixpoint send_all (ids : list UUID) (message : GameMessage.t) (gs : t) : eff :=
  match ids with
  | [] => ret gs
  | id :: ids' => bind (send id message gs) (send_all ids' message)
  end.

Definition broadcastMessage (message : GameMessage.t) (exclude : option UUID)
    (gs : t) : eff :=
  send_all
    (filter (fun id => excluded exclude id = false) (map_to_list (clients gs)).*1)
    message gs.

Definition snapshot (gs : t) : list Player.t :=
  map Client.Player (map_to_list (clients gs)).*2.

Definition sendGameStateToClient (now : Time) (clientID : UUID) (gs : t) : eff :=
  let gameStateMessage := NewGameStateMessage now (snapshot gs) in
  send clientID gameStateMessage gs.

Definition broadcastGameState (now : Time) (gs : t) : eff :=
  let players := snapshot gs in
  if (0 <? length players)%nat
  then broadcastMessage (NewGameStateMessage now players) None gs
  else ret gs.

Definition AddClient (now : Time) (client : Client.t) (sessionID : option Z)
    (gs : t) : eff :=
  let clientID := Client.ID client in
  let clientName := Player.Name (Client.Player client) in
  let db := Database.CreateOrUpdatePlayer now (Client.Player client) (database gs) in
  let joinMsg := NewPlayerJoinMessage clientID clientName in
  let db := Database.LogEvent now clientID sessionID "join" (Some joinMsg) db in
  let gs := mk (<[clientID := client]> (clients gs)) db in
  let joinMessage := NewPlayerJoinMessage clientID clientName in
  bind (send clientID joinMessage gs) (fun gs =>
  bind (broadcastMessage joinMessage (Some clientID) gs) (fun gs =>
  sendGameStateToClient now clientID gs)).

Definition RemoveClient (now : Time) (clientID : UUID) (gs : t) : eff :=
  match clients gs !! clientID with
  | None => ret gs
  | Some client =>
      let leaveMsg := NewPlayerLeaveMessage clientID in
      let gs := mk (delete clientID (clients gs))
                   (Database.LogEvent now clientID None "leave" (Some leaveMsg)
                      (database gs)) in
      bind (broadcastMessage (NewPlayerLeaveMessage clientID) None gs) (fun gs' =>
      (* close(client.Send): closing a closed channel panics *)
      if Client.closed (Client.Send client) then None else ret gs')
  end.

Definition handlePlayerAction (now : Time) (clientID : UUID) (action : string)
    (data : option GoValue) (sessionID : option Z) (gs : t) : eff :=
  if decide (action = "attack") then
    ret (with_database (Database.LogEvent now clientID sessionID "attack" None) gs)
  else if decide (action = "pickup") then
    match clients gs !! clientID with
    | None => None
    | Some client =>
        let client := Client.AddScore 10 client in
        let newScore := Player.Score (Client.Player client) in
        let db := Database.UpdatePlayerScore now clientID newScore (database gs) in
        let db := Database.LogEvent now clientID sessionID "pickup" None db in
        ret (mk (<[clientID := client]> (clients gs)) db)
    end
  else ret gs.

Definition HandleMessage (now : Time) (clientID : UUID) (message : GameMessage.t)
    (sessionID : option Z) (gs : t) : eff :=
  match clients gs !! clientID with
  | None => ret gs
  | Some client =>
      let type := GameMessage.Type_ message in
      if decide (type = "PlayerMove") then
        match GameMessage.Data message with
        | Untyped (GMap data) =>
            match data !! "player_id" with
            | Some (GString playerIDStr) =>
                match uuid_Parse playerIDStr with
                | Some playerID =>
                    if decide (playerID = clientID) then
                      match data !! "x" with
                      | Some (GFloat64 x) =>
                          match data !! "y" with
                          | Some (GFloat64 y) =>
                              let client := Client.UpdatePosition (float32 x) (float32 y) client in
                              let db := Database.UpdatePlayerPosition now clientID
                                          (float32 x) (float32 y) (database gs) in
                              let moveMsg := NewPlayerMoveMessage playerID (float32 x) (float32 y) in
                              let db := Database.LogEvent now clientID sessionID "move"
                                          (Some moveMsg) db in
                              let gs := mk (<[clientID := client]> (clients gs)) db in
                              bind (broadcastMessage moveMsg (Some clientID) gs)
                                   (broadcastGameState now)
                          | _ => ret gs
                          end
                      | _ => ret gs
                      end
                    else ret gs
                | None => ret gs
                end
            | _ => ret gs
            end
        | _ => ret gs
        end
      else if decide (type = "PlayerAction") then
        match GameMessage.Data message with
        | Untyped (GMap data) =>
            match data !! "player_id" with
            | Some (GString playerIDStr) =>
                match uuid_Parse playerIDStr with
                | Some playerID =>
                    if decide (playerID = clientID) then
                      match data !! "action" with
                      | Some (GString action) =>
                          handlePlayerAction now clientID action (data !! "data")
                            sessionID gs
                      | _ => ret gs
                      end
                    else ret gs
                | None => ret gs
                end
            | _ => ret gs
            end
        | _ => ret gs
        end
      else if decide (type = "Chat") then
        match GameMessage.Data message with
        | Untyped (GMap data) =>
            match data !! "player_id" with
            | Some (GString playerIDStr) =>
                match uuid_Parse playerIDStr with
                | Some playerID =>
                    if decide (playerID = clientID) then
                      match data !! "message" with
                      | Some (GString messageStr) =>
                          let db := Database.SaveChatMessage now clientID sessionID
                                      messageStr (database gs) in
                          let chatMsg := NewChatMessage playerID messageStr in
                          let db := Database.LogEvent now clientID sessionID "chat"
                                      (Some chatMsg) db in
                          broadcastMessage chatMsg None (mk (clients gs) db)
                      | _ => ret gs
                      end
                    else ret gs
                | None => ret gs
                end
            | _ => ret gs
            end
        | _ => ret gs
        end
      else ret gs
  end.

(** [len(gs.clients)] *)
Definition GetClientCount (gs : t) : nat := size (clients gs).
End GameState.

(** ** Accepting a stream connection (server.go, client.go)

    [HandleConnection] after a successful upgrade, followed by the part of
    [HandleClientMessages] that runs before the read loop.  [clientID] is
    the identifier [uuid.New()] minted. *)

Definition HandleClientMessages_connect (now : Time) (client : Client.t)
    (gs : GameState.t) : GameState.eff * option Z :=
  let clientAddr := Client.Addr client in
  let '(sessionID, db) :=
    Database.CreateSession now (Client.ID client) "websocket" (Some clientAddr)
      (GameState.database gs) in
  let sessionIDPtr := Some sessionID in
  (GameState.AddClient now client sessionIDPtr
     (GameState.mk (GameState.clients gs) db),
   sessionIDPtr).

Definition clientName_of (clientID : UUID) : string :=
  "Player_" +:+ prefix_bytes 8 (uuid_String clientID).

Definition HandleConnection (now : Time) (clientID : UUID) (gs : GameState.t) :
    GameState.eff :=
  let clientName := clientName_of clientID in
  (* remoteAddr := &net.TCPAddr{IP: net.ParseIP("127.0.0.1"), Port: 0} *)
  let client := NewClient clientID "127.0.0.1:0" clientName in
  fst (HandleClientMessages_connect now client gs).

(** ** Runs of the stream server *)

Module Stream.
Inductive event :=
| Connect (clientID : UUID)
  (** a connection is accepted and registered: [HandleConnection] *)
| Receive (clientID : UUID) (message : GameMessage.t) (sessionID : option Z)
  (** the read loop decoded a frame: [HandleMessage] *)
| Disconnect (clientID : UUID) (sessionID : option Z)
  (** the read loop ended: [EndSession], then the deferred [RemoveClient] *)
| Written (clientID : UUID)
  (** [WritePump] took a frame from the queue of the client *).

Definition written (clientID : UUID) (gs : GameState.t) : GameState.t :=
  GameState.mk
    (alter (fun c => Client.mk (Client.ID c) (Client.Addr c) (Client.Player c)
                       (Client.mkchan (tail (Client.queue (Client.Send c)))
                          (Client.closed (Client.Send c))))
       clientID (GameState.clients gs))
    (GameState.database gs).

Definition step (now : Time) (e : event) (gs : GameState.t) : GameState.eff :=
  match e with
  | Connect clientID => HandleConnection now clientID gs
  | Receive clientID message sessionID =>
      GameState.HandleMessage now clientID message sessionID gs
  | Disconnect clientID sessionID =>
      let gs :=
        match sessionID with
        | Some id =>
            GameState.with_database (fun d => (Database.EndSession now id d).2) gs
        | None => gs
        end in
      GameState.RemoveClient now clientID gs
  | Written clientID => GameState.ret (written clientID gs)
  end.

(** [None] when a step of the run panics *)
Fixpoint run (trace : list (Time * event)) (gs : GameState.t) : option GameState.t :=
  match trace with
  | [] => Some gs
  | (now, e) :: trace' =>
      match step now e gs with
      | Some (gs', _) => run trace' gs'
      | None => None
      end
  end.

Definition reachable (gs : GameState.t) : Prop :=
  exists database trace, run trace (GameState.mk ∅ database) = Some gs.
End Stream.

(** ** The datagram transport (udp_server.go) *)

Module UDPAddr.
(** a remote endpoint: the text of its IP address and its port *)
Record t := mk { IP : string; Port : Z }.

Definition has_colon (s : string) : bool :=
  bool_decide (":"%char ∈ list_ascii_of_string s).

(** [addr.String()], that is [net.JoinHostPort(ip, itoa(port))] *)
Definition String_ (a : t) : string :=
  let port := NilZero.string_of_int (Z.to_int (Port a)) in
  if has_colon (IP a) then "[" +:+ IP a +:+ "]:" +:+ port
  else IP a +:+ ":" +:+ port.
End UDPAddr.

Module PendingPacket.
Record t := mk { Packet : UDPPacket.t; Timestamp : Time }.
End PendingPacket.

Module UDPClient.
Record t := mk {
  ID : UUID;
  Addr : UDPAddr.t;
  Player : Player.t;
  LastSeen : Time;
  Sequence : Z;
  AckSequence : Z;
  PendingAcks : gmap Z PendingPacket.t;
  SessionID : option Z
}.

Definition UpdatePosition (now : Time) (x y : float) (uc : t) : t :=
  let p := Player uc in
  mk (ID uc) (Addr uc)
     (Player.mk (Player.ID p) (Player.Name p) x y (Player.Health p) (Player.Score p))
     now (Sequence uc) (AckSequence uc) (PendingAcks uc) (SessionID uc).

Definition UpdateHealth (health : float) (uc : t) : t :=
  let p := Player uc in
  mk (ID uc) (Addr uc)
     (Player.mk (Player.ID p) (Player.Name p) (Player.X p) (Player.Y p) health
        (Player.Score p))
     (LastSeen uc) (Sequence uc) (AckSequence uc) (PendingAcks uc) (SessionID uc).

Definition AddScore (points : Z) (uc : t) : t :=
  let p := Player uc in
  mk (ID uc) (Addr uc)
     (Player.mk (Player.ID p) (Player.Name p) (Player.X p) (Player.Y p)
        (Player.Health p) (wrap32 (Player.Score p + points)))
     (LastSeen uc) (Sequence uc) (AckSequence uc) (PendingAcks uc) (SessionID uc).

Definition NextSequence (uc : t) : Z * t :=
  let s := wrap32 (Sequence uc + 1) in
  (s, mk (ID uc) (Addr uc) (Player uc) (LastSeen uc) s (AckSequence uc)
         (PendingAcks uc) (SessionID uc)).

Definition IsTimeout (now : Time) (uc : t) : bool :=
  30 * Second <? now - LastSeen uc.

Definition with_PendingAcks
    (f : gmap Z PendingPacket.t -> gmap Z PendingPacket.t) (uc : t) : t :=
  mk (ID uc) (Addr uc) (Player uc) (LastSeen uc) (Sequence uc) (AckSequence uc)
     (f (PendingAcks uc)) (SessionID uc).

Definition AddPendingAck (now : Time) (packet : UDPPacket.t) (uc : t) : t :=
  with_PendingAcks
    (insert (UDPPacket.Sequence packet) (PendingPacket.mk packet now)) uc.

Definition RemovePendingAck (sequence : Z) (uc : t) : bool * t :=
  match PendingAcks uc !! sequence with
  | Some _ => (true, with_PendingAcks (delete sequence) uc)
  | None => (false, uc)
  end.

Definition timed_out (now : Time) (pending : PendingPacket.t) : bool :=
  100 * Millisecond <? now - PendingPacket.Timestamp pending.

Definition GetTimeoutPackets (now : Time) (uc : t) : list Z :=
  (filter (fun e => timed_out now e.2 = true) (map_to_list (PendingAcks uc))).*1.

(** heartbeat of a known endpoint *)
Definition seen (now : Time) (sequence : Z) (uc : t) : t :=
  mk (ID uc) (Addr uc) (Player uc) now (Sequence uc) sequence
     (PendingAcks uc) (SessionID uc).
End UDPClient.

Definition NewUDPClient (now : Time) (id : UUID) (addr : UDPAddr.t)
    (name : string) (sessionID : option Z) : UDPClient.t :=
  UDPClient.mk id addr (NewPlayer id name) now 0 0 ∅ sessionID.

Module UDPGameServer.
Record t := mk {
  clients : gmap string UDPClient.t;
  clientByID : gmap UUID string;
  database : Database.t
}.

(** a datagram handed to [conn.WriteToUDP]: the destination and the
    packet whose serialization is the payload *)
Definition datagram : Type := string * UDPPacket.t.

Definition with_clients (f : gmap string UDPClient.t -> gmap string UDPClient.t)
    (ugs : t) : t :=
  mk (f (clients ugs)) (clientByID ugs) (database ugs).

Definition with_database (f : Database.t -> Database.t) (ugs : t) : t :=
  mk (clients ugs) (clientByID ugs) (f (database ugs)).

Definition excluded (exclude : option string) (addrStr : string) : bool :=
  match exclude with
  | None => false
  | Some e => bool_decide (e = addrStr)
  end.

Definition sendAck (now : Time) (addr : UDPAddr.t) (sequence : Z) : list datagram :=
  [(UDPAddr.String_ addr, NewUDPPacket now 0 (NewAckMessage sequence) false)].

(** one reliable transmission: take the client's next sequence, file the
    packet under it, give the packet to the socket *)
Definition reliable (now : Time) (message : GameMessage.t) (client : UDPClient.t) :
    UDPClient.t * UDPPacket.t :=
  let '(sequence, client) := UDPClient.NextSequence client in
  let packet := NewUDPPacket now sequence message true in
  (UDPClient.AddPendingAck now packet client, packet).

Definition broadcastReliable (now : Time) (message : GameMessage.t)
    (exclude : option string) (ugs : t) : t * list datagram :=
  (with_clients
     (map_imap (fun addrStr client =>
                  Some (if excluded exclude addrStr then client
                        else (reliable now message client).1))) ugs,
   omap (fun e : string * UDPClient.t =>
           if excluded exclude e.1 then None
           else Some (e.1, (reliable now message e.2).2))
     (map_to_list (clients ugs))).

Definition broadcastUnreliable (now : Time) (message : GameMessage.t)
    (exclude : option string) (ugs : t) : list datagram :=
  omap (fun e : string * UDPClient.t =>
          if excluded exclude e.1 then None
          else Some (e.1, NewUDPPacket now 0 message false))
    (map_to_list (clients ugs)).

Definition snapshot (ugs : t) : list Player.t :=
  map UDPClient.Player (map_to_list (clients ugs)).*2.

Definition sendGameStateToClient (now : Time) (addr : UDPAddr.t) (ugs : t) :
    t * list datagram :=
  let gameStateMessage := NewGameStateMessage now (snapshot ugs) in
  let addrStr := UDPAddr.String_ addr in
  match clients ugs !! addrStr with
  | Some client =>
      let '(client, packet) := reliable now gameStateMessage client in
      (with_clients (insert addrStr client) ugs, [(addrStr, packet)])
  | None => (ugs, [])
  end.

Definition clientName_of (playerID : UUID) : string :=
  "Player_" +:+ prefix_bytes 8 (uuid_String playerID).

Definition handleHeartbeat (now : Time) (addr : UDPAddr.t) (playerID : UUID)
    (sequence : Z) (ugs : t) : t * list datagram :=
  let addrStr := UDPAddr.String_ addr in
  match clients ugs !! addrStr with
  | None =>
      let clientName := clientName_of playerID in
      let ipStr := UDPAddr.IP addr in
      let '(id, db) :=
        Database.CreateSession now playerID "udp" (Some ipStr) (database ugs) in
      let sessionID := Some id in
      let client := NewUDPClient now playerID addr clientName sessionID in
      let db := Database.CreateOrUpdatePlayer now (UDPClient.Player client) db in
      let joinMsg := NewPlayerJoinMessage playerID clientName in
      let db := Database.LogEvent now playerID sessionID "join" (Some joinMsg) db in
      let ugs := mk (<[addrStr := client]> (clients ugs))
                    (<[playerID := addrStr]> (clientByID ugs)) db in
      let '(ugs, out1) := broadcastReliable now joinMsg (Some addrStr) ugs in
      let '(ugs, out2) := sendGameStateToClient now addr ugs in
      (ugs, out1 ++ out2 ++ sendAck now addr sequence)%list
  | Some client =>
      (with_clients (insert addrStr (UDPClient.seen now sequence client)) ugs,
       sendAck now addr sequence)
  end.

Definition handleAck (addr : UDPAddr.t) (sequence : Z) (ugs : t) :
    t * list datagram :=
  match clients ugs !! UDPAddr.String_ addr with
  | Some client =>
      (with_clients
         (insert (UDPAddr.String_ addr) (UDPClient.RemovePendingAck sequence client).2)
         ugs, [])
  | None => (ugs, [])
  end.

Definition handlePlayerMove (now : Time) (addr : UDPAddr.t) (playerID : UUID)
    (x y : float) (sequence : Z) (ugs : t) : t * list datagram :=
  match clients ugs !! UDPAddr.String_ addr with
  | Some client =>
      if decide (UDPClient.ID client = playerID) then
        let addrStr := UDPAddr.String_ addr in
        let ugs := with_clients
                     (insert addrStr (UDPClient.UpdatePosition now x y client)) ugs in
        let ugs := with_database (Database.UpdatePlayerPosition now playerID x y) ugs in
        let ugs :=
          if decide (sequence mod 10 = 0) then
            let moveMsg := NewPlayerMoveMessage playerID x y in
            with_database
              (Database.LogEvent now playerID (UDPClient.SessionID client) "move"
                 (Some moveMsg)) ugs
          else ugs in
        let moveMessage := NewPlayerMoveMessage playerID x y in
        (ugs, sendAck now addr sequence
              ++ broadcastUnreliable now moveMessage (Some addrStr) ugs)%list
      else (ugs, [])
  | None => (ugs, [])
  end.

Definition handlePlayerAction (now : Time) (addr : UDPAddr.t) (playerID : UUID)
    (action : string) (data : option GoValue) (sequence : Z) (ugs : t) :
    t * list datagram :=
  match clients ugs !! UDPAddr.String_ addr with
  | Some client =>
      if decide (UDPClient.ID client = playerID) then
        let ugs :=
          if decide (action = "attack") then
            with_database
              (Database.LogEvent now playerID (UDPClient.SessionID client) "attack"
                 None) ugs
          else if decide (action = "pickup") then
            let client := UDPClient.AddScore 10 client in
            let newScore := Player.Score (UDPClient.Player client) in
            let ugs := with_clients (insert (UDPAddr.String_ addr) client) ugs in
            let ugs := with_database
                         (Database.UpdatePlayerScore now playerID newScore) ugs in
            with_database
              (Database.LogEvent now playerID (UDPClient.SessionID client) "pickup"
                 None) ugs
          else ugs in
        (ugs, sendAck now addr sequence)
      else (ugs, [])
  | None => (ugs, [])
  end.

Definition handleChat (now : Time) (addr : UDPAddr.t) (playerID : UUID)
    (message : string) (sequence : Z) (ugs : t) : t * list datagram :=
  match clients ugs !! UDPAddr.String_ addr with
  | Some client =>
      if decide (UDPClient.ID client = playerID) then
        let ugs := with_database
                     (Database.SaveChatMessage now playerID
                        (UDPClient.SessionID client) message) ugs in
        let chatMsg := NewChatMessage playerID message in
        let ugs := with_database
                     (Database.LogEvent now playerID (UDPClient.SessionID client)
                        "chat" (Some chatMsg)) ugs in
        let addrStr := UDPAddr.String_ addr in
        let '(ugs, out) := broadcastReliable now chatMsg (Some addrStr) ugs in
        (ugs, sendAck now addr sequence ++ out)%list
      else (ugs, [])
  | None => (ugs, [])
  end.

(** one tick of [startHeartbeatTask] (every 5 s) *)
Definition startHeartbeatTask (now : Time) (ugs : t) : list datagram :=
  map (fun e : string * UDPClient.t =>
         (e.1, NewUDPPacket now 0 (NewHeartbeatMessage (UDPClient.ID e.2) 0) false))
    (map_to_list (clients ugs)).

(** one tick of [startCleanupTask] (every 10 s) *)
Definition startCleanupTask (now : Time) (ugs : t) : t :=
  let timedOut :=
    filter (fun e : string * UDPClient.t => UDPClient.IsTimeout now e.2 = true)
      (map_to_list (clients ugs)) in
  let toRemove := timedOut.*1 in
  let clientIDs := map UDPClient.ID timedOut.*2 in
  foldl (fun ugs (e : string * UUID) =>
           mk (delete e.1 (clients ugs)) (delete e.2 (clientByID ugs))
              (database ugs))
    ugs (zip toRemove clientIDs).

(** one tick of [startReliabilityTask] (every 50 ms); [wrote addrStr
    packet] tells whether [WriteToUDP] succeeded *)
Definition resend (now : Time) (wrote : string -> UDPPacket.t -> bool)
    (addrStr : string) (pending : PendingPacket.t) : PendingPacket.t :=
  if UDPClient.timed_out now pending && wrote addrStr (PendingPacket.Packet pending)
  then PendingPacket.mk (PendingPacket.Packet pending) now
  else pending.

Definition startReliabilityTask (now : Time)
    (wrote : string -> UDPPacket.t -> bool) (ugs : t) : t * list datagram :=
  (with_clients
     (map_imap (fun addrStr client =>
                  Some (UDPClient.with_PendingAcks
                          (fmap (resend now wrote addrStr)) client))) ugs,
   flat_map (fun e : string * UDPClient.t =>
               omap (fun sequence =>
                       match UDPClient.PendingAcks e.2 !! sequence with
                       | Some pending => Some (e.1, PendingPacket.Packet pending)
                       | None => None
                       end)
                 (UDPClient.GetTimeoutPackets now e.2))
     (map_to_list (clients ugs))).

(** ** Runs of the server

    What happens to the server: a call of one of the handlers, which is
    what [handlePacket] does with a decoded packet of the matching type
    (a packet it cannot read leads to no call), or a tick of one of the
    three background tasks. *)

Inductive event :=
| Heartbeat (addr : UDPAddr.t) (playerID : UUID) (sequence : Z)
| Ack (addr : UDPAddr.t) (sequence : Z)
| PlayerMove (addr : UDPAddr.t) (playerID : UUID) (x y : float) (sequence : Z)
| PlayerAction (addr : UDPAddr.t) (playerID : UUID) (action : string)
    (data : option GoValue) (sequence : Z)
| Chat (addr : UDPAddr.t) (playerID : UUID) (message : string) (sequence : Z)
| HeartbeatTick
| CleanupTick
| ReliabilityTick (wrote : string -> UDPPacket.t -> bool).

Definition step (now : Time) (e : event) (ugs : t) : t * list datagram :=
  match e with
  | Heartbeat addr playerID sequence => handleHeartbeat now addr playerID sequence ugs
  | Ack addr sequence => handleAck addr sequence ugs
  | PlayerMove addr playerID x y sequence =>
      handlePlayerMove now addr playerID x y sequence ugs
  | PlayerAction addr playerID action data sequence =>
      handlePlayerAction now addr playerID action data sequence ugs
  | Chat addr playerID message sequence =>
      handleChat now addr playerID message sequence ugs
  | HeartbeatTick => (ugs, startHeartbeatTask now ugs)
  | CleanupTick => (startCleanupTask now ugs, [])
  | ReliabilityTick wrote => startReliabilityTask now wrote ugs
  end.

Fixpoint run (trace : list (Time * event)) (ugs : t) : t * list datagram :=
  match trace with
  | [] => (ugs, [])
  | (now, e) :: trace' =>
      let '(ugs1, out1) := step now e ugs in
      let '(ugs2, out2) := run trace' ugs1 in
      (ugs2, (out1 ++ out2)%list)
  end.

(** [len(ugs.clients)] *)
Definition GetClientCount (ugs : t) : nat := size (clients ugs).
End UDPGameServer.

Definition NewUDPGameServer (database : Database.t) : UDPGameServer.t :=
  UDPGameServer.mk ∅ ∅ database.

(** the states the server can be in: those some run of handler calls and
    timer ticks leads to from a fresh server *)
Definition reachable (ugs : UDPGameServer.t) : Prop :=
  exists database trace,
    (UDPGameServer.run trace (NewUDPGameServer database)).1 = ugs.

(** * Properties *)

(** ** Example states *)

(** two endpoints and two player ids *)
Definition endpoint1 : UDPAddr.t := UDPAddr.mk "10.0.0.1" 4000.
Definition endpoint2 : UDPAddr.t := UDPAddr.mk "10.0.0.2" 4001.
Definition player1 : UUID := 0x11111111111111111111111111111111%N.
Definition player2 : UUID := 0x22222222222222222222222222222222%N.

(** two endpoints join, the first one chats *)
Definition two_clients_run : list (Time * UDPGameServer.event) :=
  [(1 * Second, UDPGameServer.Heartbeat endpoint1 player1 7);
   (2 * Second, UDPGameServer.Heartbeat endpoint2 player2 1);
   (3 * Second, UDPGameServer.Chat endpoint1 player1 "hello" 2)].

Definition two_clients : UDPGameServer.t :=
  (UDPGameServer.run two_clients_run (NewUDPGameServer Database.empty)).1.



Definition client_at (ugs : UDPGameServer.t) (addr : UDPAddr.t) : UDPClient.t :=
  default (NewUDPClient 0 0%N addr "" None)
    (UDPGameServer.clients ugs !! UDPAddr.String_ addr).

(** a stream roster with one client, and messages that client may send *)
Definition one_stream_client : GameState.t :=
  match HandleConnection (5 * Second) player1 (GameState.mk ∅ Database.empty) with
  | Some (gs, _) => gs
  | None => GameState.mk ∅ Database.empty
  end.

Definition move_of (id : UUID) (x y : float) : GameMessage.t :=
  GameMessage.mk "PlayerMove"
    (Untyped (GMap (<["y" := GFloat64 y]>
                    (<["x" := GFloat64 x]>
                     (<["player_id" := GString (uuid_String id)]> ∅))))).


(** ** Closing a session *)

Lemma end_row_twice (now1 now2 : Time) (r : GameSession.t) :
  Database.end_row now2 (Database.end_row now1 r) = Database.end_row now1 r.
Proof. unfold Database.end_row. destruct (GameSession.SessionEnd r) eqn:E; simpl; by rewrite ?E. Qed.

(** C8: [EndSession] sets the end timestamp of the session exactly when it
    is still null, touches no other row, and is idempotent: a second call
    on the same session id succeeds and leaves the store as the first call
    left it. *)
Theorem EndSession_idempotent (now1 now2 : Time) (sessionID : Z) (d : Database.t) :
  let d1 := (Database.EndSession now1 sessionID d).2 in
  (Database.EndSession now1 sessionID d).1 = None
  /\ (forall r, Database.game_sessions d !! sessionID = Some r ->
        exists r1, Database.game_sessions d1 !! sessionID = Some r1
          /\ (GameSession.SessionEnd r = None ->
                GameSession.SessionEnd r1 = Some (Database.datetime_now now1))
          /\ (GameSession.SessionEnd r <> None -> r1 = r))
  /\ (forall k, k <> sessionID ->
        Database.game_sessions d1 !! k = Database.game_sessions d !! k)
  /\ Database.EndSession now2 sessionID d1 = (None, d1).
Proof.
  simpl. repeat split.
  - intros r Hr. exists (Database.end_row now1 r). split.
    + by rewrite lookup_alter_eq, Hr.
    + unfold Database.end_row. split; intros H.
      * by rewrite H.
      * by destruct (GameSession.SessionEnd r).
  - intros k Hk. by apply lookup_alter_ne.
  - unfold Database.EndSession, Database.with_game_sessions. simpl. do 2 f_equal.
    rewrite alter_alter_eq. apply alter_ext. intros r _. apply end_row_twice.
Qed.

(** ** Timeout eviction *)

Lemma zip_fst_map_snd {A B C} (f : B -> C) (l : list (A * B)) :
  zip l.*1 (map f l.*2) = map (fun e => (e.1, f e.2)) l.
Proof. induction l as [|[a b] l IH]; simpl; [done|]. f_equal. apply IH. Qed.

Definition evict (ugs : UDPGameServer.t) (e : string * UUID) : UDPGameServer.t :=
  UDPGameServer.mk (delete e.1 (UDPGameServer.clients ugs))
    (delete e.2 (UDPGameServer.clientByID ugs)) (UDPGameServer.database ugs).

Lemma evict_all_database (l : list (string * UUID)) (ugs : UDPGameServer.t) :
  UDPGameServer.database (foldl evict ugs l) = UDPGameServer.database ugs.
Proof. revert ugs. induction l as [|e l IH]; intros ugs; simpl; [done|]. by rewrite IH. Qed.

Lemma evict_all_clients (l : list (string * UUID)) (ugs : UDPGameServer.t) (a : string) :
  UDPGameServer.clients (foldl evict ugs l) !! a
  = if decide (a ∈ l.*1) then None else UDPGameServer.clients ugs !! a.
Proof.
  revert ugs. induction l as [|[a' id] l IH]; intros ugs.
  - rewrite decide_False; [done | apply not_elem_of_nil].
  - rewrite fmap_cons. cbn [foldl]. rewrite IH. cbn [evict UDPGameServer.clients fst snd].
    case_decide as H1; case_decide as H2; try done.
    + exfalso. apply H2. by right.
    + apply elem_of_cons in H2 as [->|?]; [apply lookup_delete_eq | done].
    + apply lookup_delete_ne. intros ->. apply H2. by left.
Qed.

Lemma evict_all_clientByID (l : list (string * UUID)) (ugs : UDPGameServer.t) (id : UUID) :
  UDPGameServer.clientByID (foldl evict ugs l) !! id
  = if decide (id ∈ l.*2) then None else UDPGameServer.clientByID ugs !! id.
Proof.
  revert ugs. induction l as [|[a' id'] l IH]; intros ugs.
  - rewrite decide_False; [done | apply not_elem_of_nil].
  - rewrite fmap_cons. cbn [foldl]. rewrite IH. cbn [evict UDPGameServer.clientByID fst snd].
    case_decide as H1; case_decide as H2; try done.
    + exfalso. apply H2. by right.
    + apply elem_of_cons in H2 as [->|?]; [apply lookup_delete_eq | done].
    + apply lookup_delete_ne. intros ->. apply H2. by left.
Qed.

Definition timedOut (now : Time) (ugs : UDPGameServer.t) : list (string * UDPClient.t) :=
  filter (fun e : string * UDPClient.t => UDPClient.IsTimeout now e.2 = true)
    (map_to_list (UDPGameServer.clients ugs)).

Lemma startCleanupTask_fold (now : Time) (ugs : UDPGameServer.t) :
  UDPGameServer.startCleanupTask now ugs
  = foldl evict ugs (map (fun e => (e.1, UDPClient.ID e.2)) (timedOut now ugs)).
Proof.
  unfold UDPGameServer.startCleanupTask. cbv zeta.
  fold (timedOut now ugs). by rewrite zip_fst_map_snd.
Qed.

Lemma elem_of_timedOut (now : Time) (ugs : UDPGameServer.t) a c :
  (a, c) ∈ timedOut now ugs
  <-> UDPGameServer.clients ugs !! a = Some c /\ UDPClient.IsTimeout now c = true.
Proof.
  unfold timedOut. rewrite list_elem_of_filter, elem_of_map_to_list. simpl. tauto.
Qed.

Lemma startCleanupTask_clients (now : Time) (ugs : UDPGameServer.t) (a : string) :
  UDPGameServer.clients (UDPGameServer.startCleanupTask now ugs) !! a
  = match UDPGameServer.clients ugs !! a with
    | Some c => if UDPClient.IsTimeout now c then None else Some c
    | None => None
    end.
Proof.
  rewrite startCleanupTask_fold, evict_all_clients.
  rewrite <- list_fmap_compose. 
  case_decide as H.
  - apply list_elem_of_fmap in H as [[a' c] [-> H]]. simpl.
    apply elem_of_timedOut in H as [-> ->]. done.
  - destruct (UDPGameServer.clients ugs !! a) as [c|] eqn:E; [|done].
    destruct (UDPClient.IsTimeout now c) eqn:T; [|done].
    exfalso. apply H. apply list_elem_of_fmap. exists (a, c). split; [done|].
    by apply elem_of_timedOut.
Qed.

Lemma startCleanupTask_clientByID (now : Time) (ugs : UDPGameServer.t) (id : UUID) :
  UDPGameServer.clientByID (UDPGameServer.startCleanupTask now ugs) !! id
  = if decide (exists a c, UDPGameServer.clients ugs !! a = Some c
                           /\ UDPClient.IsTimeout now c = true /\ UDPClient.ID c = id)
    then None else UDPGameServer.clientByID ugs !! id.
Proof.
  rewrite startCleanupTask_fold, evict_all_clientByID.
  rewrite <- list_fmap_compose.
  case_decide as H; case_decide as H'; try done.
  - exfalso. apply H'. apply list_elem_of_fmap in H as [[a c] [-> H]].
    apply elem_of_timedOut in H as [? ?]. by exists a, c.
  - exfalso. apply H. destruct H' as (a & c & ? & ? & <-).
    apply list_elem_of_fmap. exists (a, c). split; [done|]. by apply elem_of_timedOut.
Qed.

(** C10: a tick of the eviction sweep drops the timed-out clients from the
    client table and their ids from the reverse index and does nothing
    else: it hands no datagram to the socket (no [PlayerLeave] broadcast),
    leaves the store untouched (no [EndSession], no [leave] event), and
    every client that has not timed out stays in the table exactly as it
    was. *)
Theorem eviction_only_drops_index_entries (now : Time) (ugs : UDPGameServer.t) :
  let ugs' := UDPGameServer.startCleanupTask now ugs in
  UDPGameServer.step now UDPGameServer.CleanupTick ugs = (ugs', [])
  /\ UDPGameServer.database ugs' = UDPGameServer.database ugs
  /\ (forall a c, UDPGameServer.clients ugs !! a = Some c ->
        UDPClient.IsTimeout now c = true ->
        UDPGameServer.clients ugs' !! a = None
        /\ UDPGameServer.clientByID ugs' !! UDPClient.ID c = None)
  /\ (forall a c, UDPGameServer.clients ugs !! a = Some c ->
        UDPClient.IsTimeout now c = false ->
        UDPGameServer.clients ugs' !! a = Some c)
  /\ (forall a, UDPGameServer.clients ugs !! a = None ->
        UDPGameServer.clients ugs' !! a = None)
  /\ (forall id,
        (forall a c, UDPGameServer.clients ugs !! a = Some c ->
           UDPClient.IsTimeout now c = true -> UDPClient.ID c <> id) ->
        UDPGameServer.clientByID ugs' !! id = UDPGameServer.clientByID ugs !! id).
Proof.
  cbv zeta. split; [done|]. split.
  { rewrite startCleanupTask_fold. apply evict_all_database. }
  split; [|split; [|split]].
  - intros a c Ha Ht. split.
    + by rewrite startCleanupTask_clients, Ha, Ht.
    + rewrite startCleanupTask_clientByID. rewrite decide_True; [done|]. by exists a, c.
  - intros a c Ha Ht. by rewrite startCleanupTask_clients, Ha, Ht.
  - intros a Ha. by rewrite startCleanupTask_clients, Ha.
  - intros id Hid. rewrite startCleanupTask_clientByID. rewrite decide_False; [done|].
    intros (a & c & Ha & Ht & Hc). by eapply Hid.
Qed.

(** ** How a step changes the client table *)

(** every pending packet is a reliable one, filed under its own sequence *)
Definition pending_ok (c : UDPClient.t) : Prop :=
  forall seq pp, UDPClient.PendingAcks c !! seq = Some pp ->
    UDPPacket.Reliable (PendingPacket.Packet pp) = true
    /\ UDPPacket.Sequence (PendingPacket.Packet pp) = seq.

(** an update of a client record that keeps its identity, its health and
    the shape of its pending packets *)
Definition tame (f : UDPClient.t -> UDPClient.t) : Prop :=
  forall c, UDPClient.ID (f c) = UDPClient.ID c
    /\ Player.Health (UDPClient.Player (f c)) = Player.Health (UDPClient.Player c)
    /\ (pending_ok c -> pending_ok (f c)).

Lemma tame_id : tame (fun c => c).
Proof. by intros c. Qed.

Lemma tame_compose f g : tame f -> tame g -> tame (fun c => g (f c)).
Proof.
  intros Hf Hg c. destruct (Hf c) as (? & ? & ?), (Hg (f c)) as (? & ? & ?).
  split; [congruence | split; [congruence | auto]].
Qed.


Lemma tame_reliable now message :
  tame (fun c => (UDPGameServer.reliable now message c).1).
Proof.
  intros c. split; [done | split; [done|]].
  intros Hc s pp. cbn. rewrite lookup_insert. case_decide as E.
  - intros [= <-]. by cbn.
  - apply Hc.
Qed.

Lemma tame_seen now sequence : tame (UDPClient.seen now sequence).
Proof. by intros c. Qed.

Lemma tame_UpdatePosition now x y : tame (UDPClient.UpdatePosition now x y).
Proof. by intros c. Qed.

Lemma tame_AddScore points : tame (UDPClient.AddScore points).
Proof. by intros c. Qed.

Lemma tame_RemovePendingAck sequence :
  tame (fun c => (UDPClient.RemovePendingAck sequence c).2).
Proof.
  intros c. unfold UDPClient.RemovePendingAck.
  destruct (UDPClient.PendingAcks c !! sequence) eqn:E; cbn;
    (split; [done | split; [done|]]); [|done].
  intros Hc s pp. cbn. rewrite lookup_delete. case_decide; [done | apply Hc].
Qed.

Lemma tame_resend now wrote addrStr :
  tame (UDPClient.with_PendingAcks (fmap (UDPGameServer.resend now wrote addrStr))).
Proof.
  intros c. split; [done | split; [done|]].
  intros Hc s pp. cbn. rewrite lookup_fmap.
  destruct (UDPClient.PendingAcks c !! s) as [pp0|] eqn:E; [|done].
  cbn. intros [= <-]. unfold UDPGameServer.resend.
  destruct (_ && _); cbn; by apply Hc.
Qed.

Ltac tame_cases :=
  intros; cbv beta;
  repeat first
    [ case_decide
    | match goal with
      | |- context [if ?b then _ else _] => destruct b eqn:?
      end ];
  first
    [ apply tame_id | apply tame_seen | apply tame_reliable
    | apply tame_UpdatePosition | apply tame_AddScore
    | apply tame_RemovePendingAck | apply tame_resend
    | apply (tame_compose (fun c => (UDPGameServer.reliable _ _ c).1)
               (fun c => (UDPGameServer.reliable _ _ c).1));
      apply tame_reliable ].

(** [m'] is [m] with the client at every key [a] updated by [F a] *)
Definition updated (F : string -> UDPClient.t -> UDPClient.t)
    (m m' : gmap string UDPClient.t) : Prop :=
  forall a, m' !! a = F a <$> m !! a.

Lemma updated_refl m : updated (fun _ c => c) m m.
Proof. intros a. by destruct (m !! a). Qed.

Lemma updated_trans F G m1 m2 m3 :
  updated F m1 m2 -> updated G m2 m3 -> updated (fun a c => G a (F a c)) m1 m3.
Proof. intros H1 H2 a. rewrite H2, H1. by destruct (m1 !! a). Qed.

Lemma updated_insert (f : UDPClient.t -> UDPClient.t) m k c :
  m !! k = Some c ->
  updated (fun a c => if decide (a = k) then f c else c) m (<[k := f c]> m).
Proof.
  intros Hk a. rewrite lookup_insert. case_decide as E.
  - subst a. rewrite Hk. cbn. by rewrite decide_True.
  - destruct (m !! a); cbn; [|done]. rewrite decide_False; [done|congruence].
Qed.

Lemma updated_imap (F : string -> UDPClient.t -> UDPClient.t) m :
  updated F m (map_imap (fun a c => Some (F a c)) m).
Proof. intros a. rewrite map_lookup_imap. by destruct (m !! a). Qed.

Lemma broadcastReliable_state now message exclude ugs :
  let ugs' := (UDPGameServer.broadcastReliable now message exclude ugs).1 in
  updated (fun a c => if UDPGameServer.excluded exclude a then c
                      else (UDPGameServer.reliable now message c).1)
    (UDPGameServer.clients ugs) (UDPGameServer.clients ugs')
  /\ UDPGameServer.clientByID ugs' = UDPGameServer.clientByID ugs
  /\ UDPGameServer.database ugs' = UDPGameServer.database ugs.
Proof. cbn. split; [apply updated_imap | done]. Qed.

Lemma sendGameStateToClient_state now addr ugs :
  let ugs' := (UDPGameServer.sendGameStateToClient now addr ugs).1 in
  updated (fun a c => if decide (a = UDPAddr.String_ addr)
                      then (UDPGameServer.reliable now
                              (NewGameStateMessage now (UDPGameServer.snapshot ugs)) c).1
                      else c)
    (UDPGameServer.clients ugs) (UDPGameServer.clients ugs')
  /\ UDPGameServer.clientByID ugs' = UDPGameServer.clientByID ugs
  /\ UDPGameServer.database ugs' = UDPGameServer.database ugs.
Proof.
  unfold UDPGameServer.sendGameStateToClient. cbv zeta.
  destruct (UDPGameServer.clients ugs !! UDPAddr.String_ addr) as [c|] eqn:E.
  - cbn. split; [|done].
    apply (updated_insert (fun c => (UDPGameServer.reliable now _ c).1)), E.
  - cbn. split; [|done]. intros a. destruct (UDPGameServer.clients ugs !! a) eqn:E'; [|done].
    cbn. case_decide; [congruence | done].
Qed.

(** the table a step starts from: the table of the state, with the new
    client when the step is the admission of an unknown endpoint *)
Definition admitted (now : Time) (e : UDPGameServer.event) (ugs : UDPGameServer.t) :
    gmap string UDPClient.t :=
  match e with
  | UDPGameServer.Heartbeat addr playerID _ =>
      match UDPGameServer.clients ugs !! UDPAddr.String_ addr with
      | None =>
          <[UDPAddr.String_ addr :=
              NewUDPClient now playerID addr (UDPGameServer.clientName_of playerID)
                (Some (Database.seq_game_sessions (UDPGameServer.database ugs) + 1))]>
            (UDPGameServer.clients ugs)
      | Some _ => UDPGameServer.clients ugs
      end
  | _ => UDPGameServer.clients ugs
  end.

Definition admittedByID (e : UDPGameServer.event) (ugs : UDPGameServer.t) :
    gmap UUID string :=
  match e with
  | UDPGameServer.Heartbeat addr playerID _ =>
      match UDPGameServer.clients ugs !! UDPAddr.String_ addr with
      | None => <[playerID := UDPAddr.String_ addr]> (UDPGameServer.clientByID ugs)
      | Some _ => UDPGameServer.clientByID ugs
      end
  | _ => UDPGameServer.clientByID ugs
  end.

Lemma step_shape (now : Time) (e : UDPGameServer.event) (ugs : UDPGameServer.t) :
  e <> UDPGameServer.CleanupTick ->
  let ugs' := (UDPGameServer.step now e ugs).1 in
  (exists F, (forall a, tame (F a))
     /\ updated F (admitted now e ugs) (UDPGameServer.clients ugs'))
  /\ UDPGameServer.clientByID ugs' = admittedByID e ugs.
Proof.
  intros He. destruct e as [addr pid seq|addr seq|addr pid x y seq|addr pid action data seq
                            |addr pid message seq| | |wrote]; cbn; try done.
  - (* Heartbeat *)
    unfold UDPGameServer.handleHeartbeat. cbv zeta.
    destruct (UDPGameServer.clients ugs !! UDPAddr.String_ addr) as [c|] eqn:E.
    + cbn. split; [|done]. eexists. split; [|by apply (updated_insert _ _ _ _ E)].
      tame_cases.
    + cbn [Database.CreateSession].
      match goal with
      | |- context [UDPGameServer.broadcastReliable ?n ?m ?x ?u] =>
          destruct (broadcastReliable_state n m x u) as (B1 & B2 & B3);
          destruct (UDPGameServer.broadcastReliable n m x u) as [u1 o1] eqn:EB
      end.
      match goal with
      | |- context [UDPGameServer.sendGameStateToClient ?n ?a ?u] =>
          destruct (sendGameStateToClient_state n a u) as (S1 & S2 & S3);
          destruct (UDPGameServer.sendGameStateToClient n a u) as [u2 o2] eqn:ES
      end.
      cbn in *. split; [|congruence].
      eexists. split; [|exact (updated_trans _ _ _ _ _ B1 S1)].
      tame_cases.
  - (* Ack *)
    unfold UDPGameServer.handleAck.
    destruct (UDPGameServer.clients ugs !! UDPAddr.String_ addr) as [c|] eqn:E; cbn.
    + split; [|done]. eexists. split;
        [|by apply (updated_insert (fun c => (UDPClient.RemovePendingAck seq c).2) _ _ _ E)].
      tame_cases.
    + split; [|done]. exists (fun _ c => c). split; [tame_cases | apply updated_refl].
  - (* PlayerMove *)
    unfold UDPGameServer.handlePlayerMove.
    destruct (UDPGameServer.clients ugs !! UDPAddr.String_ addr) as [c|] eqn:E; cbn.
    + case_decide; cbn.
      * split; [|by case_decide].
        eexists. split; [|case_decide; cbn; by apply (updated_insert _ _ _ _ E)].
        tame_cases.
      * split; [|done]. exists (fun _ c => c). split; [tame_cases | apply updated_refl].
    + split; [|done]. exists (fun _ c => c). split; [tame_cases | apply updated_refl].
  - (* PlayerAction *)
    unfold UDPGameServer.handlePlayerAction.
    destruct (UDPGameServer.clients ugs !! UDPAddr.String_ addr) as [c|] eqn:E; cbn.
    + case_decide; cbn.
      * destruct (decide (action = "attack")); [|destruct (decide (action = "pickup"))]; cbn.
        -- split; [|done]. exists (fun _ c => c). split; [tame_cases | apply updated_refl].
        -- split; [|done]. eexists. split; [|by apply (updated_insert _ _ _ _ E)].
           tame_cases.
        -- split; [|done]. exists (fun _ c => c). split; [tame_cases | apply updated_refl].
      * split; [|done]. exists (fun _ c => c). split; [tame_cases | apply updated_refl].
    + split; [|done]. exists (fun _ c => c). split; [tame_cases | apply updated_refl].
  - (* Chat *)
    unfold UDPGameServer.handleChat.
    destruct (UDPGameServer.clients ugs !! UDPAddr.String_ addr) as [c|] eqn:E; cbn.
    + case_decide; cbn.
      * split; [|done]. eexists. split; [|apply updated_imap].
        tame_cases.
      * split; [|done]. exists (fun _ c => c). split; [tame_cases | apply updated_refl].
    + split; [|done]. exists (fun _ c => c). split; [tame_cases | apply updated_refl].
  - (* HeartbeatTick *)
    split; [|done]. exists (fun _ c => c). split; [tame_cases | apply updated_refl].
  - (* ReliabilityTick *)
    split; [|done]. eexists. split; [|apply updated_imap].
    tame_cases.
Qed.

Lemma admitted_cases (now : Time) (e : UDPGameServer.event) (ugs : UDPGameServer.t) :
  (admitted now e ugs = UDPGameServer.clients ugs
   /\ admittedByID e ugs = UDPGameServer.clientByID ugs)
  \/ (exists addr playerID sequence c0,
        e = UDPGameServer.Heartbeat addr playerID sequence
        /\ UDPGameServer.clients ugs !! UDPAddr.String_ addr = None
        /\ admitted now e ugs = <[UDPAddr.String_ addr := c0]> (UDPGameServer.clients ugs)
        /\ admittedByID e ugs
           = <[playerID := UDPAddr.String_ addr]> (UDPGameServer.clientByID ugs)
        /\ UDPClient.ID c0 = playerID
        /\ UDPClient.Player c0 = NewPlayer playerID (UDPGameServer.clientName_of playerID)
        /\ UDPClient.PendingAcks c0 = ∅).
Proof.
  destruct e as [addr pid seq| | | | | | | ]; cbn; try (by left).
  destruct (UDPGameServer.clients ugs !! UDPAddr.String_ addr) eqn:E; [by left|].
  right. by eexists addr, pid, seq, _.
Qed.

Lemma run_cons (now : Time) (e : UDPGameServer.event) trace (ugs : UDPGameServer.t) :
  (UDPGameServer.run ((now, e) :: trace) ugs).1
  = (UDPGameServer.run trace (UDPGameServer.step now e ugs).1).1.
Proof.
  cbn. destruct (UDPGameServer.step now e ugs) as [u1 o1]. cbn.
  by destruct (UDPGameServer.run trace u1).
Qed.

(** a property of states that every step keeps holds after every run *)
Lemma run_invariant (Inv : UDPGameServer.t -> Prop) :
  (forall now e ugs, Inv ugs -> Inv (UDPGameServer.step now e ugs).1) ->
  forall trace ugs, Inv ugs -> Inv (UDPGameServer.run trace ugs).1.
Proof.
  intros Hstep trace. induction trace as [|[now e] trace IH]; intros ugs Hugs; [done|].
  rewrite run_cons. apply IH, Hstep, Hugs.
Qed.

Lemma reachable_invariant (Inv : UDPGameServer.t -> Prop) :
  (forall database, Inv (NewUDPGameServer database)) ->
  (forall now e ugs, Inv ugs -> Inv (UDPGameServer.step now e ugs).1) ->
  forall ugs, reachable ugs -> Inv ugs.
Proof.
  intros Hinit Hstep ugs (database & trace & <-). by apply run_invariant.
Qed.

Lemma CleanupTick_or_not (e : UDPGameServer.event) :
  e = UDPGameServer.CleanupTick \/ e <> UDPGameServer.CleanupTick.
Proof. destruct e; (by left) || (by right). Qed.

(** *** Pending packets are reliable packets *)

Definition pending_reliable (ugs : UDPGameServer.t) : Prop :=
  forall a c, UDPGameServer.clients ugs !! a = Some c -> pending_ok c.

Lemma step_pending_reliable now e ugs :
  pending_reliable ugs -> pending_reliable (UDPGameServer.step now e ugs).1.
Proof.
  intros Hinv. destruct (CleanupTick_or_not e) as [->|He].
  - intros a c. cbn. rewrite startCleanupTask_clients.
    destruct (UDPGameServer.clients ugs !! a) as [c0|] eqn:E; [|done].
    destruct (UDPClient.IsTimeout now c0); [done|]. intros [= <-]. by eapply Hinv.
  - destruct (step_shape now e ugs He) as [(F & HF & Hup) _].
    intros a c. rewrite Hup.
    destruct (admitted now e ugs !! a) as [c0|] eqn:E; [|done].
    cbn. intros [= <-]. apply HF.
    destruct (admitted_cases now e ugs) as [[Had _]|(addr & pid & seq & c1 & _ & _ & Had & _ & _ & _ & Hp)].
    + rewrite Had in E. by eapply Hinv.
    + rewrite Had, lookup_insert in E. case_decide.
      * injection E as <-. intros s pp. by rewrite Hp.
      * by eapply Hinv.
Qed.

Lemma reachable_pending_reliable ugs : reachable ugs -> pending_reliable ugs.
Proof.
  apply reachable_invariant.
  - intros database a c. by cbn.
  - apply step_pending_reliable.
Qed.

Lemma resent_from_pending now wrote ugs a pkt :
  (a, pkt) ∈ (UDPGameServer.startReliabilityTask now wrote ugs).2 ->
  exists c seq pp,
    UDPGameServer.clients ugs !! a = Some c
    /\ UDPClient.PendingAcks c !! seq = Some pp
    /\ PendingPacket.Packet pp = pkt
    /\ UDPClient.timed_out now pp = true.
Proof.
  cbn. rewrite list_elem_of_In, in_flat_map. intros ([a' c] & Hin & Hpkt).
  apply list_elem_of_In, elem_of_map_to_list in Hin.
  apply list_elem_of_In, list_elem_of_omap in Hpkt as (seq & Hseq & Hsome).
  cbn in Hsome.
  destruct (UDPClient.PendingAcks c !! seq) as [pp|] eqn:E; [|done].
  injection Hsome as <- <-.
  exists c, seq, pp. repeat split; try done.
  unfold UDPClient.GetTimeoutPackets in Hseq.
  apply list_elem_of_fmap in Hseq as ([seq' pp'] & -> & Hf).
  apply list_elem_of_filter in Hf as [Ht Hm]. cbn in *.
  apply elem_of_map_to_list in Hm. congruence.
Qed.

(** C1: in every state the server can reach, every packet in a client's
    [PendingAcks] has [Reliable = true] and is filed under its own
    sequence; and a tick of the retransmission sweeper re-sends nothing but
    timed-out packets taken from the [PendingAcks] of the client it sends
    them to.  So every retransmitted packet is a reliable one: an
    unreliable packet is never retransmitted. *)
Theorem retransmission_only_of_reliable_packets (ugs : UDPGameServer.t) :
  reachable ugs ->
  (forall a c seq pp,
      UDPGameServer.clients ugs !! a = Some c ->
      UDPClient.PendingAcks c !! seq = Some pp ->
      UDPPacket.Reliable (PendingPacket.Packet pp) = true
      /\ UDPPacket.Sequence (PendingPacket.Packet pp) = seq)
  /\ (forall now wrote a pkt,
        (a, pkt) ∈ (UDPGameServer.startReliabilityTask now wrote ugs).2 ->
        UDPPacket.Reliable pkt = true
        /\ exists c pp,
             UDPGameServer.clients ugs !! a = Some c
             /\ UDPClient.PendingAcks c !! UDPPacket.Sequence pkt = Some pp
             /\ PendingPacket.Packet pp = pkt
             /\ UDPClient.timed_out now pp = true).
Proof.
  intros Hr. pose proof (reachable_pending_reliable ugs Hr) as Hinv. split.
  - intros a c seq pp Ha Hp. by eapply Hinv.
  - intros now wrote a pkt Hin.
    apply resent_from_pending in Hin as (c & seq & pp & Ha & Hp & <- & Ht).
    destruct (Hinv a c Ha seq pp Hp) as [Hrel Hseq]. split; [done|].
    exists c, pp. by rewrite Hseq.
Qed.

Lemma retransmission_only_of_reliable_packets_witness :
  reachable two_clients
  /\ (forall now wrote a pkt,
        (a, pkt) ∈ (UDPGameServer.startReliabilityTask now wrote two_clients).2 ->
        UDPPacket.Reliable pkt = true)
  /\ length (UDPGameServer.startReliabilityTask (4 * Second) (fun _ _ => true)
               two_clients).2 = 4%nat.
Proof.
  assert (Hr : reachable two_clients).
  { exists Database.empty, two_clients_run. reflexivity. }
  split; [exact Hr|]. split; [|vm_compute; reflexivity].
  intros now wrote a pkt Hin.
  exact (proj1 (proj2 (retransmission_only_of_reliable_packets two_clients Hr)
                  now wrote a pkt Hin)).
Defined.

(** *** The reverse index *)

















(** ** Identity check and player actions *)

(** the player id a stream message carries, as [HandleMessage] reads it:
    the string under ["player_id"] of the decoded object, parsed *)
Definition payload_player_id (message : GameMessage.t) : option UUID :=
  match GameMessage.Data message with
  | Untyped (GMap data) =>
      match data !! "player_id" with
      | Some (GString playerIDStr) => uuid_Parse playerIDStr
      | _ => None
      end
  | _ => None
  end.

Ltac mismatch H :=
  unfold payload_player_id in H;
  repeat (case_match; subst; try done).

(** C5: a [PlayerMove], [PlayerAction] or [Chat] whose player id is not
    the id of the client that owns the connection is dropped: the handler
    returns the state it was given (client table with positions, scores and
    pending packets, reverse index, roster, store) and produces no output,
    on the datagram path (no datagram: no [Ack], no broadcast) and on the
    stream path (no call of [SendMessage]). *)
Theorem identity_mismatch_is_dropped
    (now : Time) (ugs : UDPGameServer.t) (addr : UDPAddr.t) (playerID : UUID)
    (x y : float) (action : string) (data : option GoValue) (text : string)
    (sequence : Z)
    (gs : GameState.t) (clientID : UUID) (message : GameMessage.t)
    (sessionID : option Z) :
  (forall c, UDPGameServer.clients ugs !! UDPAddr.String_ addr = Some c ->
             UDPClient.ID c <> playerID) ->
  payload_player_id message <> Some clientID ->
  UDPGameServer.handlePlayerMove now addr playerID x y sequence ugs = (ugs, [])
  /\ UDPGameServer.handlePlayerAction now addr playerID action data sequence ugs
     = (ugs, [])
  /\ UDPGameServer.handleChat now addr playerID text sequence ugs = (ugs, [])
  /\ GameState.HandleMessage now clientID message sessionID gs = Some (gs, []).
Proof.
  intros Hudp Hstream.
  unfold UDPGameServer.handlePlayerMove, UDPGameServer.handlePlayerAction,
    UDPGameServer.handleChat.
  destruct (UDPGameServer.clients ugs !! UDPAddr.String_ addr) as [c|] eqn:E.
  - specialize (Hudp c eq_refl). rewrite !decide_False by done.
    split; [done|]. split; [done|]. split; [done|].
    unfold GameState.HandleMessage, GameState.ret. mismatch Hstream.
  - split; [done|]. split; [done|]. split; [done|].
    unfold GameState.HandleMessage, GameState.ret. mismatch Hstream.
Qed.

Lemma identity_mismatch_is_dropped_witness :
  UDPGameServer.handlePlayerMove (4 * Second) endpoint1 player2 1 2 3 two_clients
  = (two_clients, [])
  /\ UDPGameServer.handleChat (4 * Second) endpoint1 player2 "hi" 3 two_clients
     = (two_clients, [])
  /\ GameState.HandleMessage (6 * Second) player1 (move_of player2 1 2) (Some 1)
       one_stream_client
     = Some (one_stream_client, []).
Proof.
  assert (H1 : forall c,
             UDPGameServer.clients two_clients !! UDPAddr.String_ endpoint1 = Some c ->
             UDPClient.ID c <> player2).
  { intros c Hc. vm_compute in Hc. injection Hc as <-. vm_compute. discriminate. }
  assert (H2 : payload_player_id (move_of player2 1 2) <> Some player1).
  { vm_compute. discriminate. }
  destruct (identity_mismatch_is_dropped (4 * Second) two_clients endpoint1 player2
              1 2 "pickup" None "hi" 3 one_stream_client player1
              (move_of player2 1 2) (Some 1) H1 H2) as (M & _ & C & _).
  destruct (identity_mismatch_is_dropped (6 * Second) two_clients endpoint1 player2
              1 2 "pickup" None "hi" 3 one_stream_client player1
              (move_of player2 1 2) (Some 1) H1 H2) as (_ & _ & _ & S).
  split; [exact M|]. split; [exact C | exact S].
Defined.



(** ** Datagram moves *)







Section Moves.
(** a client sends moves with the sequences of a list; [timeOf k] is the
    instant the move with sequence [k] is handled and [pos k] the
    position it carries *)
Variable timeOf : Z -> Time.
Variable pos : Z -> float * float.
Variable addr : UDPAddr.t.
Variable playerID : UUID.






End Moves.



(** ** Registration of a stream client *)

Lemma keys_fmap {K A B} `{Countable K} (f : A -> B) (m : gmap K A) :
  (map_to_list (f <$> m)).*1 = (map_to_list m).*1.
Proof.
  rewrite map_to_list_fmap, <- list_fmap_compose. apply list_fmap_ext.
  by intros i [k x].
Qed.

Lemma values_fmap {K A B} `{Countable K} (f : A -> B) (m : gmap K A) :
  (map_to_list (f <$> m)).*2 = f <$> (map_to_list m).*2.
Proof.
  rewrite map_to_list_fmap, <- !list_fmap_compose. apply list_fmap_ext.
  by intros i [k x].
Qed.

(** two rosters with the same players under the same ids *)
Definition same_players (m1 m2 : gmap UUID Client.t) : Prop :=
  forall id, Client.Player <$> m1 !! id = Client.Player <$> m2 !! id.

Lemma same_players_keys m1 m2 :
  same_players m1 m2 -> (map_to_list m1).*1 = (map_to_list m2).*1.
Proof.
  intros Hs. rewrite <- (keys_fmap Client.Player m1), <- (keys_fmap Client.Player m2).
  f_equal. f_equal. apply map_eq. intros id. rewrite !lookup_fmap. apply Hs.
Qed.

Lemma same_players_snapshot gs1 gs2 :
  same_players (GameState.clients gs1) (GameState.clients gs2) ->
  GameState.snapshot gs1 = GameState.snapshot gs2.
Proof.
  intros Hs. unfold GameState.snapshot.
  change (map Client.Player ?l) with (Client.Player <$> l).
  rewrite <- !values_fmap. f_equal. f_equal. apply map_eq. intros id.
  rewrite !lookup_fmap. apply Hs.
Qed.

Lemma SendMessage_open message c :
  Client.closed (Client.Send c) = false ->
  (Client.SendMessage message c).1 <> Client.panic
  /\ Client.Player (Client.SendMessage message c).2 = Client.Player c.
Proof.
  intros Ho. unfold Client.SendMessage. rewrite Ho.
  by destruct (length (Client.queue (Client.Send c)) <? Client.capacity)%nat.
Qed.

(** sending to a client with an open channel goes through *)
Lemma send_open id message gs c :
  GameState.clients gs !! id = Some c ->
  Client.closed (Client.Send c) = false ->
  GameState.send id message gs
  = Some (GameState.mk (<[id := (Client.SendMessage message c).2]> (GameState.clients gs))
            (GameState.database gs),
          [(id, message)]).
Proof.
  intros Hc Ho. unfold GameState.send. rewrite Hc.
  unfold Client.SendMessage. rewrite Ho.
  by destruct (length (Client.queue (Client.Send c)) <? Client.capacity)%nat.
Qed.

Lemma send_all_open ids message :
  forall gs,
    NoDup ids ->
    (forall id, id ∈ ids ->
       exists c, GameState.clients gs !! id = Some c
                 /\ Client.closed (Client.Send c) = false) ->
    exists gs',
      GameState.send_all ids message gs = Some (gs', map (fun id => (id, message)) ids)
      /\ GameState.database gs' = GameState.database gs
      /\ same_players (GameState.clients gs') (GameState.clients gs)
      /\ (forall id, id ∉ ids ->
            GameState.clients gs' !! id = GameState.clients gs !! id).
Proof.
  induction ids as [|id ids IH]; intros gs Hnd Hopen.
  - exists gs. by cbn.
  - apply NoDup_cons in Hnd as [Hni Hnd].
    destruct (Hopen id) as (c & Hc & Ho); [by left|].
    cbn [GameState.send_all]. rewrite (send_open id message gs c Hc Ho).
    destruct (IH (GameState.mk (<[id := (Client.SendMessage message c).2]>
                                  (GameState.clients gs)) (GameState.database gs)) Hnd)
      as (gs' & Hs & Hd & Hp & Hother).
    { intros id' Hin. cbn. rewrite lookup_insert_ne by (intros ->; done).
      apply Hopen. by right. }
    exists gs'. cbn [GameState.bind]. rewrite Hs. cbn in Hd, Hp, Hother.
    split; [done|]. split; [done|]. split.
    + intros id'. rewrite Hp. rewrite lookup_insert. case_decide as E; [|done].
      subst id'. rewrite Hc. cbn. f_equal. by apply SendMessage_open.
    + intros id' Hn. rewrite Hother by (intros ?; apply Hn; by right).
      apply lookup_insert_ne. intros ->. apply Hn. by left.
Qed.

Lemma broadcastMessage_open message exclude gs :
  (forall id c, GameState.clients gs !! id = Some c ->
     GameState.excluded exclude id = false ->
     Client.closed (Client.Send c) = false) ->
  exists gs',
    GameState.broadcastMessage message exclude gs
    = Some (gs', map (fun id => (id, message))
                   (filter (fun id => GameState.excluded exclude id = false)
                      (map_to_list (GameState.clients gs)).*1))
    /\ GameState.database gs' = GameState.database gs
    /\ same_players (GameState.clients gs') (GameState.clients gs)
    /\ (forall id, GameState.excluded exclude id = true ->
          GameState.clients gs' !! id = GameState.clients gs !! id).
Proof.
  intros Hopen. unfold GameState.broadcastMessage.
  destruct (send_all_open
              (filter (fun id => GameState.excluded exclude id = false)
                 (map_to_list (GameState.clients gs)).*1) message gs)
    as (gs' & Hs & Hd & Hp & Hother).
  - apply NoDup_filter, NoDup_fst_map_to_list.
  - intros id Hin. apply list_elem_of_filter in Hin as [Hex Hin].
    apply list_elem_of_fmap in Hin as ([id' c] & -> & Hin).
    apply elem_of_map_to_list in Hin. exists c. split; [done|]. by eapply Hopen.
  - exists gs'. split; [done|]. split; [done|]. split; [done|].
    intros id Hex. apply Hother. rewrite list_elem_of_filter. intros [Hf _]. congruence.
Qed.

Lemma same_players_insert (m : gmap UUID Client.t) id c c' :
  Client.Player c' = Client.Player c ->
  same_players (<[id := c']> (<[id := c]> m)) (<[id := c]> m).
Proof.
  intros Hp id'. rewrite insert_insert_eq, !lookup_insert.
  case_decide; [cbn; by f_equal | done].
Qed.

Lemma AddClient_sends (now : Time) (client : Client.t) (sessionID : option Z)
    (gs : GameState.t) :
  Client.Send client = Client.mkchan [] false ->
  (forall id c, GameState.clients gs !! id = Some c -> id <> Client.ID client ->
                Client.closed (Client.Send c) = false) ->
  let clientID := Client.ID client in
  let join := NewPlayerJoinMessage clientID (Player.Name (Client.Player client)) in
  let roster := <[clientID := client]> (GameState.clients gs) in
  let state :=
    NewGameStateMessage now (map Client.Player (map_to_list roster).*2) in
  exists gs',
    GameState.AddClient now client sessionID gs
    = Some (gs', ((clientID, join)
                  :: map (fun id => (id, join))
                       (filter (fun id => id <> clientID) (map_to_list roster).*1)
                  ++ [(clientID, state)])%list)
    /\ exists client',
         GameState.clients gs' !! clientID = Some client'
         /\ Client.Player client' = Client.Player client
         /\ Client.queue (Client.Send client')
            = [marshal_GameMessage join; marshal_GameMessage state].
Proof.
  intros Hsend Hopen. cbv zeta.
  set (clientID := Client.ID client).
  set (join := NewPlayerJoinMessage clientID (Player.Name (Client.Player client))).
  set (roster := <[clientID := client]> (GameState.clients gs)).
  unfold GameState.AddClient. cbv zeta. fold clientID. fold join. fold roster.
  match goal with
  | |- context [GameState.send clientID join ?g] => set (gs1 := g)
  end.
  rewrite (send_open clientID join gs1 client);
    [|apply lookup_insert_eq | by rewrite Hsend].
  set (c1 := (Client.SendMessage join client).2).
  assert (Hq1 : Client.Send c1 = Client.mkchan [marshal_GameMessage join] false).
  { unfold c1, Client.SendMessage. by rewrite Hsend. }
  assert (Hp1 : Client.Player c1 = Client.Player client).
  { unfold c1, Client.SendMessage. by rewrite Hsend. }
  set (gs2 := GameState.mk (<[clientID := c1]> (GameState.clients gs1))
                (GameState.database gs1)).
  destruct (broadcastMessage_open join (Some clientID) gs2) as (gs3 & Hb & _ & Hp & Hex).
  { intros id c. cbn. intros Hc Hne. apply bool_decide_eq_false in Hne.
    rewrite !lookup_insert_ne in Hc by done. unfold roster in Hc.
    rewrite lookup_insert_ne in Hc by done. eapply Hopen; [done|].
    intros Heq. apply Hne. by rewrite Heq. }
  assert (Hc1 : GameState.clients gs3 !! clientID = Some c1).
  { rewrite Hex; [apply lookup_insert_eq | by apply bool_decide_eq_true]. }
  assert (Hsame : same_players (GameState.clients gs2) roster).
  { by apply same_players_insert. }
  cbn [GameState.bind]. fold gs2. rewrite Hb. cbn [GameState.bind].
  unfold GameState.sendGameStateToClient.
  rewrite (send_open clientID _ gs3 c1 Hc1); [|by rewrite Hq1].
  rewrite (same_players_snapshot gs3 (GameState.mk roster (GameState.database gs1))).
  2:{ intros id. rewrite Hp. apply Hsame. }
  rewrite (same_players_keys _ _ Hsame).
  eexists. split.
  - cbn [app]. do 2 f_equal. f_equal. f_equal. f_equal. apply list_filter_iff. intros id. cbn.
    rewrite bool_decide_eq_false. split; intros H ?; by apply H.
  - cbn [GameState.clients]. rewrite lookup_insert_eq. eexists. split; [done|].
    unfold Client.SendMessage. rewrite Hq1. cbn. by rewrite Hp1.
Qed.






(** ** The datagram codec *)










(** ** Health *)

Definition roster_health (gs : GameState.t) : Prop :=
  forall id c, GameState.clients gs !! id = Some c ->
    Player.Health (Client.Player c) = 100%float.


Lemma same_players_refl m : same_players m m.
Proof. done. Qed.

Lemma same_players_trans m1 m2 m3 :
  same_players m1 m2 -> same_players m2 m3 -> same_players m1 m3.
Proof. intros H1 H2 id. by rewrite H1. Qed.

Lemma bind_Some e k gs' o :
  GameState.bind e k = Some (gs', o) ->
  exists gs1 o1 o2, e = Some (gs1, o1) /\ k gs1 = Some (gs', o2).
Proof.
  unfold GameState.bind. destruct e as [[gs1 o1]|]; [|done].
  destruct (k gs1) as [[gs2 o2]|] eqn:E; [|done]. intros [= <- <-]. by eexists _, _, _.
Qed.

Lemma send_players id message gs gs' o :
  GameState.send id message gs = Some (gs', o) ->
  same_players (GameState.clients gs') (GameState.clients gs).
Proof.
  unfold GameState.send. destruct (GameState.clients gs !! id) as [c|] eqn:E.
  - unfold Client.SendMessage. destruct (Client.closed (Client.Send c)); [done|].
    destruct (_ <? _)%nat; intros [= <- <-]; intros id'; cbn;
      rewrite lookup_insert; (case_decide; [subst; by rewrite E | done]).
  - by intros [= <- <-].
Qed.

Lemma send_all_players ids message :
  forall gs gs' o,
    GameState.send_all ids message gs = Some (gs', o) ->
    same_players (GameState.clients gs') (GameState.clients gs).
Proof.
  induction ids as [|id ids IH]; intros gs gs' o; cbn [GameState.send_all].
  - by intros [= <- <-].
  - intros Hb. apply bind_Some in Hb as (gs1 & o1 & o2 & H1 & H2).
    eapply same_players_trans; [by eapply IH | by eapply send_players].
Qed.

Lemma broadcastMessage_players message exclude gs gs' o :
  GameState.broadcastMessage message exclude gs = Some (gs', o) ->
  same_players (GameState.clients gs') (GameState.clients gs).
Proof. apply send_all_players. Qed.


Lemma roster_health_insert gs id c :
  roster_health gs -> Player.Health (Client.Player c) = 100%float ->
  roster_health (GameState.mk (<[id := c]> (GameState.clients gs))
                   (GameState.database gs)).
Proof.
  intros Hh Hc id' c'. cbn. rewrite lookup_insert. case_decide.
  - by intros [= <-].
  - apply Hh.
Qed.










(** * Further properties of the datagram server *)

(** ** What a step can do to a client record *)

(** the updates of a client record the handlers and the timers are made
    of *)
Inductive evolves : UDPClient.t -> UDPClient.t -> Prop :=
| evolves_refl c : evolves c c
| evolves_reliable now message c c' :
    evolves c c' -> evolves c (UDPGameServer.reliable now message c').1
| evolves_seen now sequence c c' :
    evolves c c' -> evolves c (UDPClient.seen now sequence c')
| evolves_UpdatePosition now x y c c' :
    evolves c c' -> evolves c (UDPClient.UpdatePosition now x y c')
| evolves_AddScore points c c' :
    evolves c c' -> evolves c (UDPClient.AddScore points c')
| evolves_RemovePendingAck sequence c c' :
    evolves c c' -> evolves c (UDPClient.RemovePendingAck sequence c').2
| evolves_resend now wrote addrStr c c' :
    evolves c c' ->
    evolves c (UDPClient.with_PendingAcks
                 (fmap (UDPGameServer.resend now wrote addrStr)) c').

Definition evolving (f : UDPClient.t -> UDPClient.t) : Prop :=
  forall c, evolves c (f c).

Ltac evolving_cases :=
  intros; cbv beta;
  repeat first
    [ case_decide
    | match goal with
      | |- context [if ?b then _ else _] => destruct b eqn:?
      end ];
  intros ?; repeat constructor.

Lemma step_evolves (now : Time) (e : UDPGameServer.event) (ugs : UDPGameServer.t) :
  e <> UDPGameServer.CleanupTick ->
  exists F, (forall a, evolving (F a))
    /\ updated F (admitted now e ugs)
         (UDPGameServer.clients (UDPGameServer.step now e ugs).1).
Proof.
  intros He. destruct e as [addr pid seq|addr seq|addr pid x y seq|addr pid action data seq
                            |addr pid message seq| | |wrote]; cbn; try done.
  - unfold UDPGameServer.handleHeartbeat. cbv zeta.
    destruct (UDPGameServer.clients ugs !! UDPAddr.String_ addr) as [c|] eqn:E.
    + cbn. eexists. split; [|by apply (updated_insert _ _ _ _ E)]. evolving_cases.
    + cbn [Database.CreateSession].
      match goal with
      | |- context [UDPGameServer.broadcastReliable ?n ?m ?x ?u] =>
          destruct (broadcastReliable_state n m x u) as (B1 & B2 & B3);
          destruct (UDPGameServer.broadcastReliable n m x u) as [u1 o1] eqn:EB
      end.
      match goal with
      | |- context [UDPGameServer.sendGameStateToClient ?n ?a ?u] =>
          destruct (sendGameStateToClient_state n a u) as (S1 & S2 & S3);
          destruct (UDPGameServer.sendGameStateToClient n a u) as [u2 o2] eqn:ES
      end.
      cbn in *. eexists. split; [|exact (updated_trans _ _ _ _ _ B1 S1)].
      evolving_cases.
  - unfold UDPGameServer.handleAck.
    destruct (UDPGameServer.clients ugs !! UDPAddr.String_ addr) as [c|] eqn:E; cbn.
    + eexists. split;
        [|by apply (updated_insert (fun c => (UDPClient.RemovePendingAck seq c).2) _ _ _ E)].
      evolving_cases.
    + exists (fun _ c => c). split; [evolving_cases | apply updated_refl].
  - unfold UDPGameServer.handlePlayerMove.
    destruct (UDPGameServer.clients ugs !! UDPAddr.String_ addr) as [c|] eqn:E; cbn.
    + case_decide; cbn.
      * eexists. split; [|case_decide; cbn; by apply (updated_insert _ _ _ _ E)].
        evolving_cases.
      * exists (fun _ c => c). split; [evolving_cases | apply updated_refl].
    + exists (fun _ c => c). split; [evolving_cases | apply updated_refl].
  - unfold UDPGameServer.handlePlayerAction.
    destruct (UDPGameServer.clients ugs !! UDPAddr.String_ addr) as [c|] eqn:E; cbn.
    + case_decide; cbn.
      * destruct (decide (action = "attack")); [|destruct (decide (action = "pickup"))]; cbn.
        -- exists (fun _ c => c). split; [evolving_cases | apply updated_refl].
        -- eexists. split; [|by apply (updated_insert _ _ _ _ E)]. evolving_cases.
        -- exists (fun _ c => c). split; [evolving_cases | apply updated_refl].
      * exists (fun _ c => c). split; [evolving_cases | apply updated_refl].
    + exists (fun _ c => c). split; [evolving_cases | apply updated_refl].
  - unfold UDPGameServer.handleChat.
    destruct (UDPGameServer.clients ugs !! UDPAddr.String_ addr) as [c|] eqn:E; cbn.
    + case_decide; cbn.
      * eexists. split; [|apply updated_imap]. evolving_cases.
      * exists (fun _ c => c). split; [evolving_cases | apply updated_refl].
    + exists (fun _ c => c). split; [evolving_cases | apply updated_refl].
  - exists (fun _ c => c). split; [evolving_cases | apply updated_refl].
  - eexists. split; [|apply updated_imap]. evolving_cases.
Qed.

Lemma evolves_keeps c c' :
  evolves c c' ->
  UDPClient.ID c' = UDPClient.ID c
  /\ UDPClient.Addr c' = UDPClient.Addr c
  /\ UDPClient.SessionID c' = UDPClient.SessionID c
  /\ Player.ID (UDPClient.Player c') = Player.ID (UDPClient.Player c)
  /\ Player.Name (UDPClient.Player c') = Player.Name (UDPClient.Player c).
Proof.
  induction 1 as [c|now message c c' _ IH|now sequence c c' _ IH|now x y c c' _ IH
                  |points c c' _ IH|sequence c c' _ IH|now wrote addrStr c c' _ IH];
    try done.
  unfold UDPClient.RemovePendingAck. by destruct (UDPClient.PendingAcks c' !! sequence).
Qed.

Lemma wrap32_range z : is_uint32 (wrap32 z).
Proof. unfold is_uint32, wrap32. apply Z.mod_pos_bound. lia. Qed.

(** the counter and the keys of the pending packets are [uint32] values *)
Definition counters_ok (c : UDPClient.t) : Prop :=
  is_uint32 (UDPClient.Sequence c)
  /\ forall seq, is_Some (UDPClient.PendingAcks c !! seq) -> is_uint32 seq.

Lemma evolves_counters c c' : evolves c c' -> counters_ok c -> counters_ok c'.
Proof.
  induction 1 as [c|now message c c' _ IH|now sequence c c' _ IH|now x y c c' _ IH
                  |points c c' _ IH|sequence c c' _ IH|now wrote addrStr c c' _ IH];
    intros Hc; try (by apply IH); try done.
  - destruct (IH Hc) as [Hs Hk]. split; [apply wrap32_range|].
    intros seq. cbn. rewrite lookup_insert. case_decide as E.
    + intros _. subst seq. apply wrap32_range.
    + apply Hk.
  - destruct (IH Hc) as [Hs Hk]. unfold UDPClient.RemovePendingAck.
    destruct (UDPClient.PendingAcks c' !! sequence) eqn:E; [|done].
    split; [done|]. intros seq. cbn. rewrite lookup_delete. case_decide.
    + by intros [? ?].
    + apply Hk.
  - destruct (IH Hc) as [Hs Hk]. split; [done|]. intros seq. cbn.
    rewrite lookup_fmap. intros [pp Hpp]. apply Hk.
    destruct (UDPClient.PendingAcks c' !! seq); [by eexists | done].
Qed.

(** a property of the clients of the table that the updates keep and a new
    client has holds in every reachable state *)
Lemma reachable_clients (P : string -> UDPClient.t -> Prop) :
  (forall a c c', evolves c c' -> P a c -> P a c') ->
  (forall now addr playerID sessionID,
     P (UDPAddr.String_ addr)
       (NewUDPClient now playerID addr (UDPGameServer.clientName_of playerID) sessionID)) ->
  forall ugs, reachable ugs ->
  forall a c, UDPGameServer.clients ugs !! a = Some c -> P a c.
Proof.
  intros Hev Hnew.
  apply (reachable_invariant
           (fun ugs => forall a c, UDPGameServer.clients ugs !! a = Some c -> P a c)).
  - intros database a c. by cbn.
  - intros now e ugs Hinv. destruct (CleanupTick_or_not e) as [->|He].
    + intros a c. cbn. rewrite startCleanupTask_clients.
      destruct (UDPGameServer.clients ugs !! a) as [c0|] eqn:E; [|done].
      destruct (UDPClient.IsTimeout now c0); [done|]. intros [= <-]. by eapply Hinv.
    + destruct (step_evolves now e ugs He) as (F & HF & Hup).
      intros a c. rewrite Hup.
      destruct (admitted now e ugs !! a) as [c0|] eqn:E; [|done].
      cbn. intros [= <-]. eapply Hev; [apply HF|].
      destruct e as [addr pid seq| | | | | | | ]; cbn in E; try by eapply Hinv.
      destruct (UDPGameServer.clients ugs !! UDPAddr.String_ addr) eqn:E';
        [by eapply Hinv|].
      rewrite lookup_insert in E. case_decide; [|by eapply Hinv].
      injection E as <-. subst a. apply Hnew.
Qed.

(** X1: in every reachable state a client of the table sits under the
    printed form of its own address; its player carries the id of the
    client and the name ["Player_"] followed by the first 8 characters of
    the printed id; its outbound counter and the sequences of its pending
    packets are [uint32] values. *)
Theorem table_clients_well_formed (ugs : UDPGameServer.t) :
  reachable ugs ->
  forall a c, UDPGameServer.clients ugs !! a = Some c ->
    UDPAddr.String_ (UDPClient.Addr c) = a
    /\ Player.ID (UDPClient.Player c) = UDPClient.ID c
    /\ Player.Name (UDPClient.Player c)
       = "Player_" +:+ prefix_bytes 8 (uuid_String (UDPClient.ID c))
    /\ is_uint32 (UDPClient.Sequence c)
    /\ (forall seq, is_Some (UDPClient.PendingAcks c !! seq) -> is_uint32 seq).
Proof.
  apply (reachable_clients
           (fun a c =>
              UDPAddr.String_ (UDPClient.Addr c) = a
              /\ Player.ID (UDPClient.Player c) = UDPClient.ID c
              /\ Player.Name (UDPClient.Player c)
                 = "Player_" +:+ prefix_bytes 8 (uuid_String (UDPClient.ID c))
              /\ is_uint32 (UDPClient.Sequence c)
              /\ (forall seq, is_Some (UDPClient.PendingAcks c !! seq) -> is_uint32 seq))).
  - intros a c c' Hev (H1 & H2 & H3 & H4 & H5).
    destruct (evolves_keeps c c' Hev) as (K1 & K2 & K3 & K4 & K5).
    destruct (evolves_counters c c' Hev (conj H4 H5)) as [C1 C2].
    rewrite K1, K2, K4, K5. done.
  - intros now addr playerID sessionID. cbn.
    split; [done|]. split; [done|]. split; [done|]. split; [done|].
    intros seq [pp Hpp]. by rewrite lookup_empty in Hpp.
Qed.

Lemma table_clients_well_formed_witness :
  reachable two_clients
  /\ Player.Name (UDPClient.Player (client_at two_clients endpoint2))
     = "Player_22222222"
  /\ is_uint32 (UDPClient.Sequence (client_at two_clients endpoint2)).
Proof.
  assert (Hr : reachable two_clients).
  { exists Database.empty, two_clients_run. reflexivity. }
  assert (Hc : UDPGameServer.clients two_clients !! UDPAddr.String_ endpoint2
               = Some (client_at two_clients endpoint2)) by (vm_compute; reflexivity).
  destruct (table_clients_well_formed two_clients Hr _ _ Hc) as (_ & _ & Hn & Hs & _).
  split; [exact Hr|]. split; [|exact Hs]. rewrite Hn. vm_compute. reflexivity.
Defined.

(** ** What the server hands to the socket *)

Lemma omap_filter_map {A B} (p : A -> bool) (f : A -> B) (l : list A) :
  omap (fun e => if p e then None else Some (f e)) l
  = map f (filter (fun e => p e = false) l).
Proof.
  induction l as [|x l IH]; [done|]. cbn [omap list_omap]. rewrite filter_cons.
  destruct (p x) eqn:E; cbn.
  - by rewrite decide_False.
  - rewrite decide_True by done. cbn. by f_equal.
Qed.

(** the other endpoints of a broadcast, with their clients *)
Definition others (exclude : option string) (ugs : UDPGameServer.t) :
    list (string * UDPClient.t) :=
  filter (fun e : string * UDPClient.t => UDPGameServer.excluded exclude e.1 = false)
    (map_to_list (UDPGameServer.clients ugs)).

Lemma elem_of_others exclude ugs a c :
  (a, c) ∈ others exclude ugs
  <-> UDPGameServer.clients ugs !! a = Some c
      /\ UDPGameServer.excluded exclude a = false.
Proof.
  unfold others. rewrite list_elem_of_filter, elem_of_map_to_list. cbn. tauto.
Qed.

Lemma NoDup_others exclude ugs : NoDup (others exclude ugs).*1.
Proof.
  unfold others. apply NoDup_fmap_fst.
  - intros a c1 c2 H1 H2. apply list_elem_of_filter in H1 as [_ H1], H2 as [_ H2].
    apply elem_of_map_to_list in H1, H2. congruence.
  - apply NoDup_filter, NoDup_map_to_list.
Qed.

Lemma broadcastReliable_out now message exclude ugs :
  (UDPGameServer.broadcastReliable now message exclude ugs).2
  = map (fun e : string * UDPClient.t =>
           (e.1, (UDPGameServer.reliable now message e.2).2))
      (others exclude ugs).
Proof.
  cbn. unfold others.
  apply (omap_filter_map (fun e : string * UDPClient.t => UDPGameServer.excluded exclude e.1)).
Qed.

Lemma broadcastUnreliable_out now message exclude ugs :
  UDPGameServer.broadcastUnreliable now message exclude ugs
  = map (fun e : string * UDPClient.t => (e.1, NewUDPPacket now 0 message false))
      (others exclude ugs).
Proof.
  unfold UDPGameServer.broadcastUnreliable, others.
  apply (omap_filter_map (fun e : string * UDPClient.t => UDPGameServer.excluded exclude e.1)).
Qed.

(** the packet of a reliable transmission: the next sequence of the
    client, reliable, and pending under that sequence afterwards *)
Lemma reliable_packet now message c :
  let r := UDPGameServer.reliable now message c in
  r.2 = NewUDPPacket now (wrap32 (UDPClient.Sequence c + 1)) message true
  /\ UDPClient.Sequence r.1 = wrap32 (UDPClient.Sequence c + 1)
  /\ UDPClient.PendingAcks r.1
     = <[wrap32 (UDPClient.Sequence c + 1) := PendingPacket.mk r.2 now]>
         (UDPClient.PendingAcks c)
  /\ UDPClient.Player r.1 = UDPClient.Player c
  /\ UDPClient.LastSeen r.1 = UDPClient.LastSeen c
  /\ UDPClient.AckSequence r.1 = UDPClient.AckSequence c.
Proof. done. Qed.

(** a datagram is in order in a state: its endpoint is in the client
    table, and the packet is either unreliable with sequence 0 or pending
    at that client under its sequence *)
Definition in_order (ugs : UDPGameServer.t) (d : UDPGameServer.datagram) : Prop :=
  exists c, UDPGameServer.clients ugs !! d.1 = Some c
    /\ if UDPPacket.Reliable d.2
       then exists pp, UDPClient.PendingAcks c !! UDPPacket.Sequence d.2 = Some pp
                       /\ PendingPacket.Packet pp = d.2
       else UDPPacket.Sequence d.2 = 0.

Lemma in_order_ack now addr sequence ugs c :
  UDPGameServer.clients ugs !! UDPAddr.String_ addr = Some c ->
  Forall (in_order ugs) (UDPGameServer.sendAck now addr sequence).
Proof. intros Hc. repeat constructor. by exists c. Qed.

Lemma in_order_broadcastUnreliable now message exclude ugs ugs' :
  (forall a, is_Some (UDPGameServer.clients ugs !! a) ->
             is_Some (UDPGameServer.clients ugs' !! a)) ->
  Forall (in_order ugs') (UDPGameServer.broadcastUnreliable now message exclude ugs).
Proof.
  intros Hk. rewrite broadcastUnreliable_out. apply Forall_forall. intros d Hd.
  apply list_elem_of_fmap in Hd as ([a c] & -> & Hin).
  apply elem_of_others in Hin as [Hc _].
  destruct (Hk a) as [c' Hc']; [by eexists|]. by exists c'.
Qed.

Lemma in_order_broadcastReliable now message exclude ugs :
  Forall (in_order (UDPGameServer.broadcastReliable now message exclude ugs).1)
    (UDPGameServer.broadcastReliable now message exclude ugs).2.
Proof.
  rewrite broadcastReliable_out. apply Forall_forall. intros d Hd.
  apply list_elem_of_fmap in Hd as ([a c] & -> & Hin).
  apply elem_of_others in Hin as [Hc Hex].
  destruct (broadcastReliable_state now message exclude ugs) as (Hup & _).
  exists (UDPGameServer.reliable now message c).1. split.
  - cbn [fst]. rewrite (Hup a), Hc. cbn. by rewrite Hex.
  - cbn. eexists. split; [apply lookup_insert_eq | done].
Qed.

Lemma in_order_sendGameStateToClient now addr ugs :
  Forall (in_order (UDPGameServer.sendGameStateToClient now addr ugs).1)
    (UDPGameServer.sendGameStateToClient now addr ugs).2.
Proof.
  unfold UDPGameServer.sendGameStateToClient. cbv zeta.
  destruct (UDPGameServer.clients ugs !! UDPAddr.String_ addr) as [c|] eqn:E; [|by cbn].
  cbn. repeat constructor. eexists. split; [apply lookup_insert_eq|].
  cbn. eexists. split; [apply lookup_insert_eq | done].
Qed.

(** a datagram in order stays in order when the client at its endpoint
    is left alone *)
Lemma in_order_same ugs ugs' d :
  UDPGameServer.clients ugs' !! d.1 = UDPGameServer.clients ugs !! d.1 ->
  in_order ugs d -> in_order ugs' d.
Proof. intros Heq (c & Hc & Hd). exists c. by rewrite Heq. Qed.

Lemma others_excluded {B} exclude ugs (d : string * B) f :
  d ∈ map (fun e : string * UDPClient.t => (e.1, f e)) (others (Some exclude) ugs) ->
  d.1 <> exclude.
Proof.
  intros Hd. apply list_elem_of_fmap in Hd as ([a c] & -> & Hin).
  apply elem_of_others in Hin as [_ Hex]. cbn in *.
  apply bool_decide_eq_false in Hex. congruence.
Qed.

Lemma in_order_startReliabilityTask now wrote ugs :
  pending_reliable ugs ->
  Forall (in_order (UDPGameServer.startReliabilityTask now wrote ugs).1)
    (UDPGameServer.startReliabilityTask now wrote ugs).2.
Proof.
  intros Hinv. apply Forall_forall. intros [a pkt] Hd.
  apply resent_from_pending in Hd as (c & seq & pp & Hc & Hpp & <- & _).
  destruct (Hinv a c Hc seq pp Hpp) as [Hrel Hseq].
  eexists. split.
  - cbn. rewrite map_lookup_imap, Hc. cbn. reflexivity.
  - cbn. rewrite Hrel, Hseq. rewrite lookup_fmap, Hpp. cbn.
    eexists. split; [done|]. unfold UDPGameServer.resend. by case_match.
Qed.

Lemma in_order_startHeartbeatTask now ugs :
  Forall (in_order ugs) (UDPGameServer.startHeartbeatTask now ugs).
Proof.
  apply Forall_forall. intros d Hd.
  apply list_elem_of_fmap in Hd as ([a c] & -> & Hin).
  apply elem_of_map_to_list in Hin. by exists c.
Qed.

(** X2: whatever happens to a reachable server, each datagram it hands to
    the socket goes to an endpoint that is in the client table afterwards,
    and is either an unreliable packet with sequence number 0 or a reliable
    packet that is pending at that client under its own sequence number.
    So every reliable packet can be retransmitted, nothing is sent to an
    endpoint the cleanup evicts in that step, and the sequence number 0 is
    the mark of the unreliable packets. *)
Theorem sent_datagrams_in_order (now : Time) (e : UDPGameServer.event)
    (ugs : UDPGameServer.t) :
  reachable ugs ->
  Forall (in_order (UDPGameServer.step now e ugs).1) (UDPGameServer.step now e ugs).2.
Proof.
  intros Hr. apply reachable_pending_reliable in Hr.
  destruct e as [addr pid seq|addr seq|addr pid x y seq|addr pid action data seq
                |addr pid message seq| | |wrote]; cbn [UDPGameServer.step fst snd].
  - (* Heartbeat *)
    unfold UDPGameServer.handleHeartbeat. cbv zeta.
    destruct (UDPGameServer.clients ugs !! UDPAddr.String_ addr) as [c|] eqn:E.
    + cbn [fst snd]. eapply in_order_ack. cbn. apply lookup_insert_eq.
    + cbn [Database.CreateSession].
      match goal with
      | |- context [UDPGameServer.broadcastReliable ?n ?m ?x ?u] =>
          pose proof (in_order_broadcastReliable n m x u) as H1;
          pose proof (broadcastReliable_state n m x u) as (Hup1 & _);
          pose proof (broadcastReliable_out n m x u) as Ho1;
          destruct (UDPGameServer.broadcastReliable n m x u) as [ugs1 out1] eqn:E1
      end.
      pose proof (in_order_sendGameStateToClient now addr ugs1) as H2.
      pose proof (sendGameStateToClient_state now addr ugs1) as (Hup2 & _).
      destruct (UDPGameServer.sendGameStateToClient now addr ugs1) as [ugs2 out2] eqn:E2.
      cbn [fst snd] in *. apply Forall_app. split; [|apply Forall_app; split; [done|]].
      * apply Forall_forall. intros d Hd.
        assert (d.1 <> UDPAddr.String_ addr) as Hne.
        { rewrite Ho1 in Hd. eapply others_excluded. exact Hd. }
        rewrite Forall_forall in H1. apply (in_order_same ugs1); [|by apply H1].
        rewrite (Hup2 d.1).
        destruct (UDPGameServer.clients ugs1 !! d.1); cbn; [|done].
        by rewrite decide_False.
      * assert (is_Some (UDPGameServer.clients ugs2 !! UDPAddr.String_ addr)) as [c Hc].
        { rewrite (Hup2 _), (Hup1 _). cbn. rewrite lookup_insert_eq. by eexists. }
        by eapply in_order_ack.
  - (* Ack *)
    unfold UDPGameServer.handleAck. by case_match.
  - (* PlayerMove *)
    unfold UDPGameServer.handlePlayerMove.
    destruct (UDPGameServer.clients ugs !! UDPAddr.String_ addr) as [c|] eqn:E; [|done].
    destruct (decide (UDPClient.ID c = pid)); [|done]. cbv zeta. cbn [fst snd].
    apply Forall_app. split.
    + eapply in_order_ack. case_decide; cbn; apply lookup_insert_eq.
    + by apply in_order_broadcastUnreliable.
  - (* PlayerAction *)
    unfold UDPGameServer.handlePlayerAction.
    destruct (UDPGameServer.clients ugs !! UDPAddr.String_ addr) as [c|] eqn:E; [|done].
    destruct (decide (UDPClient.ID c = pid)); [|done]. cbv zeta. cbn [fst snd].
    destruct (decide (action = "attack")); [by eapply in_order_ack|].
    destruct (decide (action = "pickup")); [|by eapply in_order_ack].
    eapply in_order_ack. cbn. apply lookup_insert_eq.
  - (* Chat *)
    unfold UDPGameServer.handleChat.
    destruct (UDPGameServer.clients ugs !! UDPAddr.String_ addr) as [c|] eqn:E; [|done].
    destruct (decide (UDPClient.ID c = pid)); [|done]. cbv zeta.
    match goal with
    | |- context [UDPGameServer.broadcastReliable ?n ?m ?x ?u] =>
        pose proof (in_order_broadcastReliable n m x u) as H1;
        pose proof (broadcastReliable_state n m x u) as (Hup1 & _);
        destruct (UDPGameServer.broadcastReliable n m x u) as [ugs1 out1] eqn:E1
    end.
    cbn [fst snd] in *. apply Forall_app. split; [|done].
    assert (is_Some (UDPGameServer.clients ugs1 !! UDPAddr.String_ addr)) as [c1 Hc1].
    { rewrite (Hup1 _). cbn. rewrite E. by eexists. }
    by eapply in_order_ack.
  - apply in_order_startHeartbeatTask.
  - done.
  - by apply in_order_startReliabilityTask.
Qed.

Lemma sent_datagrams_in_order_witness :
  reachable two_clients
  /\ Forall (in_order (UDPGameServer.step (4 * Second)
                         (UDPGameServer.Chat endpoint2 player2 "hi" 3) two_clients).1)
       (UDPGameServer.step (4 * Second)
          (UDPGameServer.Chat endpoint2 player2 "hi" 3) two_clients).2.
Proof.
  assert (reachable two_clients) as Hr.
  { exists Database.empty, two_clients_run. reflexivity. }
  split; [exact Hr|]. apply sent_datagrams_in_order, Hr.
Defined.

(** ** Acknowledgements and the retransmission sweep *)

(** the sweep lists exactly the overdue pending packets *)
Lemma resent_iff now wrote ugs a pkt :
  (a, pkt) ∈ (UDPGameServer.startReliabilityTask now wrote ugs).2
  <-> exists c seq pp,
        UDPGameServer.clients ugs !! a = Some c
        /\ UDPClient.PendingAcks c !! seq = Some pp
        /\ PendingPacket.Packet pp = pkt
        /\ UDPClient.timed_out now pp = true.
Proof.
  split; [apply resent_from_pending|].
  intros (c & seq & pp & Hc & Hpp & <- & Hto).
  cbn. apply list_elem_of_In, in_flat_map. exists (a, c). split.
  - by apply list_elem_of_In, elem_of_map_to_list.
  - apply list_elem_of_In, list_elem_of_omap. exists seq. split.
    + unfold UDPClient.GetTimeoutPackets. apply list_elem_of_fmap.
      exists (seq, pp). split; [done|].
      apply list_elem_of_filter. split; [done|]. by apply elem_of_map_to_list.
    + cbn. by rewrite Hpp.
Qed.

(** the pending packets of a client after the sweep *)
Lemma swept_pending now wrote ugs a c seq :
  UDPGameServer.clients ugs !! a = Some c ->
  exists c',
    UDPGameServer.clients (UDPGameServer.startReliabilityTask now wrote ugs).1 !! a
    = Some c'
    /\ UDPClient.PendingAcks c' !! seq
       = UDPGameServer.resend now wrote a <$> UDPClient.PendingAcks c !! seq
    /\ UDPClient.LastSeen c' = UDPClient.LastSeen c
    /\ UDPClient.Sequence c' = UDPClient.Sequence c
    /\ UDPClient.Player c' = UDPClient.Player c.
Proof.
  intros Hc. eexists. split.
  - cbn. rewrite map_lookup_imap, Hc. cbn. reflexivity.
  - cbn. by rewrite lookup_fmap.
Qed.

(** X3: an acknowledgement takes the packet with the acknowledged
    sequence number off the pending packets of the client at the sending
    endpoint and does nothing else: nothing is sent, no other pending
    packet, no other field of a client (the time it was last seen
    included), neither index nor the database changes; an acknowledgement
    from an unknown endpoint changes nothing.  In a reachable state the
    sweep that follows retransmits no packet with that sequence number to
    that endpoint. *)
Theorem ack_clears_pending_packet (now : Time) (addr : UDPAddr.t) (sequence : Z)
    (wrote : string -> UDPPacket.t -> bool) (ugs : UDPGameServer.t) :
  reachable ugs ->
  let ugs' := (UDPGameServer.handleAck addr sequence ugs).1 in
  (UDPGameServer.handleAck addr sequence ugs).2 = []
  /\ UDPGameServer.clientByID ugs' = UDPGameServer.clientByID ugs
  /\ UDPGameServer.database ugs' = UDPGameServer.database ugs
  /\ (forall a, UDPGameServer.clients ugs !! a = None ->
                UDPGameServer.clients ugs' !! a = None)
  /\ (forall a c, UDPGameServer.clients ugs !! a = Some c ->
        exists c', UDPGameServer.clients ugs' !! a = Some c'
          /\ UDPClient.with_PendingAcks (fun _ => UDPClient.PendingAcks c) c' = c
          /\ forall seq, UDPClient.PendingAcks c' !! seq
                         = if decide (a = UDPAddr.String_ addr /\ seq = sequence)
                           then None else UDPClient.PendingAcks c !! seq)
  /\ (forall pkt,
        (UDPAddr.String_ addr, pkt)
          ∈ (UDPGameServer.startReliabilityTask now wrote ugs').2 ->
        UDPPacket.Sequence pkt <> sequence).
Proof.
  intros Hr. apply reachable_pending_reliable in Hr. cbv zeta.
  assert (forall a c, UDPGameServer.clients ugs !! a = Some c ->
        exists c', UDPGameServer.clients
                     (UDPGameServer.handleAck addr sequence ugs).1 !! a = Some c'
          /\ UDPClient.with_PendingAcks (fun _ => UDPClient.PendingAcks c) c' = c
          /\ forall seq, UDPClient.PendingAcks c' !! seq
                         = if decide (a = UDPAddr.String_ addr /\ seq = sequence)
                           then None else UDPClient.PendingAcks c !! seq) as Hcl.
  { intros a c Hc. unfold UDPGameServer.handleAck.
    destruct (UDPGameServer.clients ugs !! UDPAddr.String_ addr) as [c0|] eqn:E.
    - cbn. destruct (decide (a = UDPAddr.String_ addr)) as [->|Hne].
      + rewrite lookup_insert_eq. eexists. split; [done|].
        assert (c0 = c) as -> by congruence.
        unfold UDPClient.RemovePendingAck.
        destruct (UDPClient.PendingAcks c !! sequence) as [pp|] eqn:Ep; cbn.
        * split; [by destruct c|]. intros seq.
          destruct (decide (seq = sequence)) as [->|Hs].
          -- rewrite lookup_delete_eq. by rewrite decide_True.
          -- rewrite lookup_delete_ne by done. rewrite decide_False; [done|tauto].
        * split; [by destruct c|]. intros seq. case_decide as Hd; [|done].
          destruct Hd as [_ ->]. done.
      + rewrite lookup_insert_ne by done. exists c. split; [done|].
        split; [by destruct c|]. intros seq. rewrite decide_False; [done|tauto].
    - cbn. exists c. split; [done|]. split; [by destruct c|]. intros seq.
      case_decide as Hd; [|done]. destruct Hd as [-> _]. congruence. }
  split; [unfold UDPGameServer.handleAck; by case_match|].
  split; [unfold UDPGameServer.handleAck; by case_match|].
  split; [unfold UDPGameServer.handleAck; by case_match|].
  split.
  { intros a Ha. unfold UDPGameServer.handleAck.
    destruct (UDPGameServer.clients ugs !! UDPAddr.String_ addr) as [c0|] eqn:E; [|done].
    cbn. rewrite lookup_insert_ne; [done|]. intros <-. congruence. }
  split; [exact Hcl|].
  intros pkt Hin Hseq.
  apply resent_iff in Hin as (c' & seq & pp & Hc' & Hpp & Hpkt & _).
  destruct (UDPGameServer.clients ugs !! UDPAddr.String_ addr) as [c|] eqn:E.
  - destruct (Hcl _ c E) as (c1 & Hc1 & _ & Hp).
    assert (c1 = c') as -> by congruence.
    rewrite Hp in Hpp. case_decide as Hd; [done|].
    destruct (Hr _ c E seq pp Hpp) as [_ Hs]. apply Hd. split; [done|]. congruence.
  - unfold UDPGameServer.handleAck in Hc'. rewrite E in Hc'. cbn in Hc'. congruence.
Qed.

Lemma ack_clears_pending_packet_witness :
  reachable two_clients
  /\ UDPClient.PendingAcks (client_at two_clients endpoint2) !! 2 <> None
  /\ UDPClient.PendingAcks
       (client_at (UDPGameServer.handleAck endpoint2 2 two_clients).1 endpoint2) !! 2
     = None.
Proof.
  assert (reachable two_clients) as Hr.
  { exists Database.empty, two_clients_run. reflexivity. }
  split; [exact Hr|]. split; [by vm_compute|].
  destruct (ack_clears_pending_packet 0 endpoint2 2 (fun _ _ => true) two_clients Hr)
    as (_ & _ & _ & _ & _ & _).
  by vm_compute.
Defined.

(** X4: a tick of the retransmission sweep hands to the socket exactly
    the pending packets that have waited for more than 100 ms, each to the
    endpoint of its client.  It restarts the wait of a packet exactly when
    the packet was overdue and written, and changes nothing else of a
    client.  In a reachable state, a packet the tick has written is
    therefore not sent again by a tick that comes at most 100 ms later. *)
Theorem sweep_resends_overdue_packets (now now' : Time)
    (wrote wrote' : string -> UDPPacket.t -> bool) (ugs : UDPGameServer.t) :
  reachable ugs ->
  let ugs' := (UDPGameServer.startReliabilityTask now wrote ugs).1 in
  (forall a pkt,
     (a, pkt) ∈ (UDPGameServer.startReliabilityTask now wrote ugs).2
     <-> exists c seq pp,
           UDPGameServer.clients ugs !! a = Some c
           /\ UDPClient.PendingAcks c !! seq = Some pp
           /\ PendingPacket.Packet pp = pkt
           /\ 100 * Millisecond < now - PendingPacket.Timestamp pp)
  /\ (forall a c, UDPGameServer.clients ugs !! a = Some c ->
        exists c', UDPGameServer.clients ugs' !! a = Some c'
          /\ UDPClient.with_PendingAcks (fun _ => UDPClient.PendingAcks c) c' = c
          /\ forall seq,
               UDPClient.PendingAcks c' !! seq
               = (fun pp =>
                    PendingPacket.mk (PendingPacket.Packet pp)
                      (if (100 * Millisecond <? now - PendingPacket.Timestamp pp)
                          && wrote a (PendingPacket.Packet pp)
                       then now else PendingPacket.Timestamp pp))
                 <$> UDPClient.PendingAcks c !! seq)
  /\ (forall a pkt,
        (a, pkt) ∈ (UDPGameServer.startReliabilityTask now wrote ugs).2 ->
        wrote a pkt = true ->
        now' - now <= 100 * Millisecond ->
        (a, pkt) ∉ (UDPGameServer.startReliabilityTask now' wrote' ugs').2).
Proof.
  intros Hr. apply reachable_pending_reliable in Hr. cbv zeta.
  split; [|split].
  - intros a pkt. rewrite resent_iff. unfold UDPClient.timed_out.
    by setoid_rewrite Z.ltb_lt.
  - intros a c Hc. eexists. split.
    { cbn. rewrite map_lookup_imap, Hc. cbn. reflexivity. }
    split; [by destruct c|]. intros seq. cbn. rewrite lookup_fmap.
    destruct (UDPClient.PendingAcks c !! seq) as [pp|]; [|done]. cbn. f_equal.
    unfold UDPGameServer.resend, UDPClient.timed_out.
    destruct pp as [p ts]; cbn. by case_match.
  - intros a pkt Hin Hw Hle Hin'.
    apply resent_iff in Hin as (c & seq & pp & Hc & Hpp & Hpkt & Hto).
    apply resent_iff in Hin' as (c' & seq' & pp' & Hc' & Hpp' & Hpkt' & Hto').
    destruct (swept_pending now wrote ugs a c seq' Hc) as (c1 & Hc1 & Hp1 & _).
    assert (c1 = c') as -> by congruence.
    rewrite Hpp' in Hp1.
    destruct (UDPClient.PendingAcks c !! seq') as [pp0|] eqn:E0; [|done].
    cbn in Hp1. injection Hp1 as ->.
    assert (PendingPacket.Packet pp0 = pkt) as Hp0.
    { rewrite <- Hpkt'. unfold UDPGameServer.resend. by case_match. }
    destruct (Hr a c Hc seq pp Hpp) as [_ Hs], (Hr a c Hc seq' pp0 E0) as [_ Hs0].
    assert (seq' = seq) as -> by congruence.
    assert (pp0 = pp) as -> by congruence.
    unfold UDPGameServer.resend in Hto'. rewrite Hto, Hpkt, Hw in Hto'.
    unfold UDPClient.timed_out in Hto'. cbn in Hto'. lia.
Qed.

Lemma sweep_resends_overdue_packets_witness :
  reachable two_clients
  /\ length (UDPGameServer.startReliabilityTask (4 * Second) (fun _ _ => true)
               two_clients).2 = 4%nat
  /\ (UDPGameServer.startReliabilityTask (4 * Second + 100 * Millisecond)
        (fun _ _ => true)
        (UDPGameServer.startReliabilityTask (4 * Second) (fun _ _ => true)
           two_clients).1).2 = [].
Proof.
  assert (reachable two_clients) as Hr.
  { exists Database.empty, two_clients_run. reflexivity. }
  split; [exact Hr|].
  destruct (sweep_resends_overdue_packets (4 * Second) (4 * Second + 100 * Millisecond)
              (fun _ _ => true) (fun _ _ => true) two_clients Hr) as (_ & _ & _).
  split; by vm_compute.
Defined.

(** ** Admission of a new endpoint *)

Lemma map_to_list_imap_total {A B} (F : string -> A -> B) (m : gmap string A) :
  map_to_list (map_imap (fun a c => Some (F a c)) m)
  ≡ₚ map (fun e : string * A => (e.1, F e.1 e.2)) (map_to_list m).
Proof.
  apply NoDup_Permutation.
  - apply NoDup_map_to_list.
  - apply (NoDup_fmap_1 fst). rewrite <- list_fmap_compose.
    apply (NoDup_fst_map_to_list m).
  - intros [a b]. rewrite elem_of_map_to_list, map_lookup_imap, list_elem_of_fmap.
    split.
    + destruct (m !! a) as [c|] eqn:E; [|done]. cbn. intros [= <-].
      exists (a, c). split; [done|]. by apply elem_of_map_to_list.
    + intros ([a' c] & [= -> ->] & Hin). apply elem_of_map_to_list in Hin.
      by rewrite Hin.
Qed.

Lemma filter_all {A} (P : A -> Prop) `{forall x, Decision (P x)} (l : list A) :
  Forall P l -> filter P l = l.
Proof.
  induction 1 as [|x l Hx _ IH]; [done|]. rewrite filter_cons_True by done.
  by f_equal.
Qed.





(** ** What keeps a client alive *)

(** X6: the time a client was last seen is set by a heartbeat from its
    endpoint and by a move from its endpoint that carries its player id,
    and by nothing else: in every other step (a chat, an action, an
    acknowledgement, a packet from another endpoint, a tick of a background
    task) a client that stays in the table keeps the time it had.  So a
    client that has sent neither of the two for more than 30 s is evicted
    by the cleanup tick even when a chat, an action or an acknowledgement
    of it has just been handled. *)
Theorem last_seen_set_by_heartbeat_and_move (now now' : Time)
    (e : UDPGameServer.event) (ugs : UDPGameServer.t) (a : string) (c : UDPClient.t) :
  UDPGameServer.clients ugs !! a = Some c ->
  (forall c', UDPGameServer.clients (UDPGameServer.step now e ugs).1 !! a = Some c' ->
     UDPClient.LastSeen c' = UDPClient.LastSeen c
     \/ (UDPClient.LastSeen c' = now
         /\ exists addr, UDPAddr.String_ addr = a
              /\ ((exists playerID sequence,
                     e = UDPGameServer.Heartbeat addr playerID sequence)
                  \/ (exists x y sequence,
                        e = UDPGameServer.PlayerMove addr (UDPClient.ID c) x y sequence))))
  /\ ((forall addr playerID sequence,
         e = UDPGameServer.Heartbeat addr playerID sequence -> UDPAddr.String_ addr <> a) ->
      (forall addr playerID x y sequence,
         e = UDPGameServer.PlayerMove addr playerID x y sequence ->
         UDPAddr.String_ addr <> a) ->
      30 * Second < now' - UDPClient.LastSeen c ->
      UDPGameServer.clients
        (UDPGameServer.step now' UDPGameServer.CleanupTick
           (UDPGameServer.step now e ugs).1).1 !! a = None).
Proof.
  intros Hc.
  assert (forall c', UDPGameServer.clients (UDPGameServer.step now e ugs).1 !! a = Some c' ->
     UDPClient.LastSeen c' = UDPClient.LastSeen c
     \/ (UDPClient.LastSeen c' = now
         /\ exists addr, UDPAddr.String_ addr = a
              /\ ((exists playerID sequence,
                     e = UDPGameServer.Heartbeat addr playerID sequence)
                  \/ (exists x y sequence,
                        e = UDPGameServer.PlayerMove addr (UDPClient.ID c) x y sequence))))
    as Hstep.
  { destruct e as [addr pid seq|addr seq|addr pid x y seq|addr pid action data seq
                  |addr pid message seq| | |wrote]; cbn [UDPGameServer.step fst snd];
      intros c'.
    - (* Heartbeat *)
      unfold UDPGameServer.handleHeartbeat. cbv zeta.
      destruct (UDPGameServer.clients ugs !! UDPAddr.String_ addr) as [c0|] eqn:E.
      + cbn. destruct (decide (UDPAddr.String_ addr = a)) as [<-|Hne].
        * rewrite lookup_insert_eq. intros [= <-]. right. split; [done|].
          exists addr. split; [done|]. left. by exists pid, seq.
        * rewrite lookup_insert_ne by done. rewrite Hc. intros [= <-]. by left.
      + cbn [Database.CreateSession].
        match goal with
        | |- context [UDPGameServer.broadcastReliable ?n ?m ?x ?u] =>
            pose proof (broadcastReliable_state n m x u) as (Hup1 & _);
            destruct (UDPGameServer.broadcastReliable n m x u) as [ugs1 out1] eqn:E1
        end.
        pose proof (sendGameStateToClient_state now addr ugs1) as (Hup2 & _).
        destruct (UDPGameServer.sendGameStateToClient now addr ugs1) as [ugs2 out2] eqn:E2.
        cbn [fst snd] in *.
        assert (a <> UDPAddr.String_ addr) as Hne by congruence.
        rewrite (Hup2 a), (Hup1 a). cbn. rewrite lookup_insert_ne by done.
        rewrite Hc. cbn. rewrite decide_False by done. intros [= <-]. left.
        by case_match.
    - (* Ack *)
      unfold UDPGameServer.handleAck.
      destruct (UDPGameServer.clients ugs !! UDPAddr.String_ addr) as [c0|] eqn:E;
        cbn; [|rewrite Hc; intros [= <-]; by left].
      destruct (decide (UDPAddr.String_ addr = a)) as [<-|Hne].
      + rewrite lookup_insert_eq. intros [= <-]. left.
        assert (c0 = c) as -> by congruence.
        unfold UDPClient.RemovePendingAck. by case_match.
      + rewrite lookup_insert_ne by done. rewrite Hc. intros [= <-]. by left.
    - (* PlayerMove *)
      unfold UDPGameServer.handlePlayerMove.
      destruct (UDPGameServer.clients ugs !! UDPAddr.String_ addr) as [c0|] eqn:E;
        [|cbn; rewrite Hc; intros [= <-]; by left].
      destruct (decide (UDPClient.ID c0 = pid)) as [Hid|];
        [|cbn; rewrite Hc; intros [= <-]; by left].
      cbv zeta. cbn [fst].
      assert (forall u, UDPGameServer.clients
                (if decide (seq mod 10 = 0)
                 then UDPGameServer.with_database
                        (Database.LogEvent now pid (UDPClient.SessionID c0) "move"
                           (Some (NewPlayerMoveMessage pid x y))) u
                 else u) = UDPGameServer.clients u) as -> by (intros u; by case_decide).
      cbn. destruct (decide (UDPAddr.String_ addr = a)) as [<-|Hne].
      + rewrite lookup_insert_eq. intros [= <-]. right. split; [done|].
        exists addr. split; [done|]. right. exists x, y, seq.
        assert (c0 = c) as -> by congruence. by rewrite Hid.
      + rewrite lookup_insert_ne by done. rewrite Hc. intros [= <-]. by left.
    - (* PlayerAction *)
      unfold UDPGameServer.handlePlayerAction.
      destruct (UDPGameServer.clients ugs !! UDPAddr.String_ addr) as [c0|] eqn:E;
        [|cbn; rewrite Hc; intros [= <-]; by left].
      destruct (decide (UDPClient.ID c0 = pid)) as [Hid|];
        [|cbn; rewrite Hc; intros [= <-]; by left].
      cbv zeta. cbn [fst].
      destruct (decide (action = "attack")); [cbn; rewrite Hc; intros [= <-]; by left|].
      destruct (decide (action = "pickup")); [|cbn; rewrite Hc; intros [= <-]; by left].
      cbn. destruct (decide (UDPAddr.String_ addr = a)) as [<-|Hne].
      + rewrite lookup_insert_eq. intros [= <-]. left.
        assert (c0 = c) as -> by congruence. done.
      + rewrite lookup_insert_ne by done. rewrite Hc. intros [= <-]. by left.
    - (* Chat *)
      unfold UDPGameServer.handleChat.
      destruct (UDPGameServer.clients ugs !! UDPAddr.String_ addr) as [c0|] eqn:E;
        [|cbn; rewrite Hc; intros [= <-]; by left].
      destruct (decide (UDPClient.ID c0 = pid)) as [Hid|];
        [|cbn; rewrite Hc; intros [= <-]; by left].
      cbv zeta.
      match goal with
      | |- context [UDPGameServer.broadcastReliable ?n ?m ?x ?u] =>
          pose proof (broadcastReliable_state n m x u) as (Hup1 & _);
          destruct (UDPGameServer.broadcastReliable n m x u) as [ugs1 out1] eqn:E1
      end.
      cbn [fst snd] in *. rewrite (Hup1 a). cbn. rewrite Hc. cbn.
      intros [= <-]. left. by case_match.
    - rewrite Hc. intros [= <-]. by left.
    - rewrite startCleanupTask_clients, Hc. case_match; [done|]. intros [= <-]. by left.
    - cbn. rewrite map_lookup_imap, Hc. cbn. intros [= <-]. by left. }
  split; [exact Hstep|].
  intros Hhb Hmv Hold. cbn [UDPGameServer.step fst]. rewrite startCleanupTask_clients.
  destruct (UDPGameServer.clients (UDPGameServer.step now e ugs).1 !! a) as [c'|] eqn:E';
    [|done].
  destruct (Hstep c' eq_refl) as [Hsame|(_ & addr & Ha & [(p & s & He)|(x & y & s & He)])].
  - unfold UDPClient.IsTimeout. rewrite Hsame.
    by rewrite (proj2 (Z.ltb_lt _ _) Hold).
  - by destruct (Hhb _ _ _ He).
  - by destruct (Hmv _ _ _ _ _ He).
Qed.

Lemma last_seen_set_by_heartbeat_and_move_witness :
  UDPGameServer.clients two_clients !! "10.0.0.1:4000"
  = Some (client_at two_clients endpoint1)
  /\ UDPGameServer.clients
       (UDPGameServer.step (31 * Second + 1) UDPGameServer.CleanupTick
          (UDPGameServer.step (31 * Second)
             (UDPGameServer.Chat endpoint1 player1 "still here" 9) two_clients).1).1
       !! "10.0.0.1:4000" = None.
Proof.
  assert (UDPGameServer.clients two_clients !! "10.0.0.1:4000"
          = Some (client_at two_clients endpoint1)) as Hc by (by vm_compute).
  split; [exact Hc|].
  apply (proj2 (last_seen_set_by_heartbeat_and_move (31 * Second) (31 * Second + 1)
                  (UDPGameServer.Chat endpoint1 player1 "still here" 9)
                  two_clients _ _ Hc)); [done | done | by vm_compute].
Defined.

(** ** Chat over datagrams *)

Lemma others_filter a ugs :
  others (Some a) ugs
  = filter (fun e : string * UDPClient.t => e.1 <> a)
      (map_to_list (UDPGameServer.clients ugs)).
Proof.
  unfold others. apply list_filter_iff. intros [b c]. cbn.
  rewrite bool_decide_eq_false. split; congruence.
Qed.

(** X7: a chat from an endpoint whose client carries the player id of the
    payload is acknowledged first and then sent reliably to every other
    endpoint of the table, numbered with that client's next sequence
    number; the sender gets no copy.  The sender's client is left as it
    was, every other client has used that sequence number and waits for
    the acknowledgement of the packet.  The store gets one chat row and
    one chat event, both with the session of the sender, and nothing else
    of it changes. *)
Theorem chat_is_relayed_to_the_others (now : Time) (addr : UDPAddr.t)
    (playerID : UUID) (message : string) (sequence : Z)
    (ugs : UDPGameServer.t) (uc : UDPClient.t) :
  UDPGameServer.clients ugs !! UDPAddr.String_ addr = Some uc ->
  UDPClient.ID uc = playerID ->
  let a := UDPAddr.String_ addr in
  let chat := NewChatMessage playerID message in
  let packet_for (c : UDPClient.t) :=
    NewUDPPacket now (wrap32 (UDPClient.Sequence c + 1)) chat true in
  let r := UDPGameServer.handleChat now addr playerID message sequence ugs in
  let db := UDPGameServer.database ugs in
  let db' := UDPGameServer.database r.1 in
  r.2 = (a, NewUDPPacket now 0 (NewAckMessage sequence) false)
        :: map (fun e : string * UDPClient.t => (e.1, packet_for e.2))
             (filter (fun e : string * UDPClient.t => e.1 <> a)
                (map_to_list (UDPGameServer.clients ugs)))
  /\ UDPGameServer.clients r.1 !! a = Some uc
  /\ (forall b c, b <> a -> UDPGameServer.clients ugs !! b = Some c ->
        UDPGameServer.clients r.1 !! b
        = Some (UDPClient.mk (UDPClient.ID c) (UDPClient.Addr c) (UDPClient.Player c)
                  (UDPClient.LastSeen c) (wrap32 (UDPClient.Sequence c + 1))
                  (UDPClient.AckSequence c)
                  (<[wrap32 (UDPClient.Sequence c + 1)
                       := PendingPacket.mk (packet_for c) now]> (UDPClient.PendingAcks c))
                  (UDPClient.SessionID c)))
  /\ UDPGameServer.clientByID r.1 = UDPGameServer.clientByID ugs
  /\ Database.chat_messages db'
     = (Database.chat_messages db
        ++ [ChatMessage.mk (Database.seq_chat_messages db + 1) (uuid_String playerID)
              (UDPClient.SessionID uc) message (Unix now)])%list
  /\ Database.player_events db'
     = (Database.player_events db
        ++ [PlayerEvent.mk (Database.seq_player_events db + 1) (uuid_String playerID)
              (UDPClient.SessionID uc) "chat" (Some (marshal_GameMessage chat))
              (Unix now)])%list
  /\ Database.players db' = Database.players db
  /\ Database.game_sessions db' = Database.game_sessions db.
Proof.
  intros Hc Hid. cbv zeta. unfold UDPGameServer.handleChat. rewrite Hc.
  rewrite decide_True by done. cbv zeta.
  match goal with
  | |- context [UDPGameServer.broadcastReliable ?n ?m ?x ?u] =>
      pose proof (broadcastReliable_state n m x u) as (Hup1 & Hidx1 & Hdb1);
      pose proof (broadcastReliable_out n m x u) as Ho1;
      destruct (UDPGameServer.broadcastReliable n m x u) as [ugs1 out1] eqn:E1
  end.
  cbn [fst snd] in *.
  split.
  { cbn [UDPGameServer.sendAck app]. f_equal. rewrite Ho1, others_filter. done. }
  split.
  { rewrite (Hup1 _). cbn. rewrite Hc. cbn. by rewrite bool_decide_eq_true_2. }
  split.
  { intros b c Hb Hcb. rewrite (Hup1 _). cbn. rewrite Hcb. cbn.
    rewrite bool_decide_eq_false_2 by congruence. done. }
  split; [done|]. rewrite Hdb1. done.
Qed.

Lemma chat_is_relayed_to_the_others_witness :
  UDPGameServer.clients two_clients !! UDPAddr.String_ endpoint2
  = Some (client_at two_clients endpoint2)
  /\ UDPClient.ID (client_at two_clients endpoint2) = player2
  /\ (UDPGameServer.handleChat (4 * Second) endpoint2 player2 "hi" 3 two_clients).2
     = [("10.0.0.2:4001", NewUDPPacket (4 * Second) 0 (NewAckMessage 3) false);
        ("10.0.0.1:4000",
         NewUDPPacket (4 * Second) 3 (NewChatMessage player2 "hi") true)].
Proof.
  assert (UDPGameServer.clients two_clients !! UDPAddr.String_ endpoint2
          = Some (client_at two_clients endpoint2)) as Hc by (by vm_compute).
  split; [exact Hc|]. split; [by vm_compute|].
  rewrite (proj1 (chat_is_relayed_to_the_others (4 * Second) endpoint2 player2 "hi" 3
                    two_clients _ Hc eq_refl)).
  by vm_compute.
Defined.

(** ** The store under the datagram server *)

(** the keys of the session table are row ids the counter has given out *)
Definition sessions_below (d : Database.t) : Prop :=
  forall id, is_Some (Database.game_sessions d !! id) -> id <= Database.seq_game_sessions d.

(** what one step does to the session table and the two logs *)
Definition store_grows (d d' : Database.t) : Prop :=
  ((Database.game_sessions d' = Database.game_sessions d
    /\ Database.seq_game_sessions d' = Database.seq_game_sessions d)
   \/ (exists row,
         Database.game_sessions d'
         = <[Database.seq_game_sessions d + 1 := row]> (Database.game_sessions d)
         /\ Database.seq_game_sessions d' = Database.seq_game_sessions d + 1
         /\ GameSession.SessionEnd row = None
         /\ GameSession.Protocol row = "udp"))
  /\ Database.player_events d `prefix_of` Database.player_events d'
  /\ Database.chat_messages d `prefix_of` Database.chat_messages d'.

Lemma store_grows_refl d : store_grows d d.
Proof. split; [by left | done]. Qed.

Lemma store_grows_LogEvent now playerID sessionID eventType eventData d d' :
  store_grows d d' ->
  store_grows d (Database.LogEvent now playerID sessionID eventType eventData d').
Proof.
  intros (Hs & He & Hc). split; [exact Hs|]. split; [|exact Hc].
  cbn. by apply prefix_app_r.
Qed.

Lemma udp_step_store_grows now e ugs :
  store_grows (UDPGameServer.database ugs)
    (UDPGameServer.database (UDPGameServer.step now e ugs).1).
Proof.
  destruct e as [addr pid seq|addr seq|addr pid x y seq|addr pid action data seq
                |addr pid message seq| | |wrote]; cbn [UDPGameServer.step fst snd].
  - unfold UDPGameServer.handleHeartbeat. cbv zeta.
    destruct (UDPGameServer.clients ugs !! UDPAddr.String_ addr) as [c|] eqn:E;
      [apply store_grows_refl|].
    cbn [Database.CreateSession].
    match goal with
    | |- context [UDPGameServer.broadcastReliable ?n ?m ?x ?u] =>
        pose proof (broadcastReliable_state n m x u) as (_ & _ & Hdb1);
        destruct (UDPGameServer.broadcastReliable n m x u) as [ugs1 out1] eqn:E1
    end.
    pose proof (sendGameStateToClient_state now addr ugs1) as (_ & _ & Hdb2).
    destruct (UDPGameServer.sendGameStateToClient now addr ugs1) as [ugs2 out2] eqn:E2.
    cbn [fst snd] in *. rewrite Hdb2, Hdb1. cbn. split; [|split; [|done]].
    + right. eexists. split; [done|]. done.
    + by apply prefix_app_r.
  - unfold UDPGameServer.handleAck. case_match; apply store_grows_refl.
  - unfold UDPGameServer.handlePlayerMove.
    destruct (UDPGameServer.clients ugs !! UDPAddr.String_ addr) as [c|] eqn:E;
      [|apply store_grows_refl].
    destruct (decide (UDPClient.ID c = pid)); [|apply store_grows_refl].
    cbv zeta. cbn [fst]. case_decide; cbn.
    + split; [by left|]. split; [by apply prefix_app_r | done].
    + split; [by left | done].
  - unfold UDPGameServer.handlePlayerAction.
    destruct (UDPGameServer.clients ugs !! UDPAddr.String_ addr) as [c|] eqn:E;
      [|apply store_grows_refl].
    destruct (decide (UDPClient.ID c = pid)); [|apply store_grows_refl].
    cbv zeta. cbn [fst].
    destruct (decide (action = "attack")).
    { cbn. split; [by left|]. split; [by apply prefix_app_r | done]. }
    destruct (decide (action = "pickup")); [|apply store_grows_refl].
    cbn. split; [by left|]. split; [by apply prefix_app_r | done].
  - unfold UDPGameServer.handleChat.
    destruct (UDPGameServer.clients ugs !! UDPAddr.String_ addr) as [c|] eqn:E;
      [|apply store_grows_refl].
    destruct (decide (UDPClient.ID c = pid)); [|apply store_grows_refl].
    cbv zeta.
    match goal with
    | |- context [UDPGameServer.broadcastReliable ?n ?m ?x ?u] =>
        pose proof (broadcastReliable_state n m x u) as (_ & _ & Hdb1);
        destruct (UDPGameServer.broadcastReliable n m x u) as [ugs1 out1] eqn:E1
    end.
    cbn [fst snd] in *. rewrite Hdb1. cbn.
    split; [by left|]. split; by apply prefix_app_r.
  - apply store_grows_refl.
  - rewrite startCleanupTask_fold. 
    assert (forall l u, UDPGameServer.database (foldl evict u l) = UDPGameServer.database u)
      as ->; [|apply store_grows_refl].
    intros l. induction l as [|x l IH]; intros u; [done|]. cbn [foldl]. by rewrite IH.
  - apply store_grows_refl.
Qed.

(** X8: along every run of the datagram server over a store whose
    session keys are row ids the counter has given out, the session table
    only gets new rows: a row that is there stays as it is, so the server
    ends no session, neither one it has opened nor one it has found, and
    every row that comes in is an open session over "udp" with a new row
    id.  The event log and the chat log only grow at the end, and the
    number of open sessions never goes down. *)
Theorem datagram_server_ends_no_session (trace : list (Time * UDPGameServer.event))
    (ugs : UDPGameServer.t) :
  sessions_below (UDPGameServer.database ugs) ->
  let db := UDPGameServer.database ugs in
  let db' := UDPGameServer.database (UDPGameServer.run trace ugs).1 in
  sessions_below db'
  /\ (forall id row, Database.game_sessions db !! id = Some row ->
        Database.game_sessions db' !! id = Some row)
  /\ (forall id row, Database.game_sessions db' !! id = Some row ->
        Database.game_sessions db !! id = Some row
        \/ (Database.seq_game_sessions db < id <= Database.seq_game_sessions db'
            /\ GameSession.SessionEnd row = None
            /\ GameSession.Protocol row = "udp"))
  /\ Database.player_events db `prefix_of` Database.player_events db'
  /\ Database.chat_messages db `prefix_of` Database.chat_messages db'
  /\ Database.GetActiveSessionsCount db <= Database.GetActiveSessionsCount db'.
Proof.
  cbv zeta. revert ugs.
  assert (forall ugs, sessions_below (UDPGameServer.database ugs) ->
    sessions_below (UDPGameServer.database (UDPGameServer.run trace ugs).1)
    /\ Database.seq_game_sessions (UDPGameServer.database ugs)
       <= Database.seq_game_sessions
            (UDPGameServer.database (UDPGameServer.run trace ugs).1)
    /\ (forall id row,
          Database.game_sessions (UDPGameServer.database ugs) !! id = Some row ->
          Database.game_sessions
            (UDPGameServer.database (UDPGameServer.run trace ugs).1) !! id = Some row)
    /\ (forall id row,
          Database.game_sessions
            (UDPGameServer.database (UDPGameServer.run trace ugs).1) !! id = Some row ->
          Database.game_sessions (UDPGameServer.database ugs) !! id = Some row
          \/ (Database.seq_game_sessions (UDPGameServer.database ugs) < id
                <= Database.seq_game_sessions
                     (UDPGameServer.database (UDPGameServer.run trace ugs).1)
              /\ GameSession.SessionEnd row = None
              /\ GameSession.Protocol row = "udp"))
    /\ Database.player_events (UDPGameServer.database ugs)
         `prefix_of` Database.player_events
                       (UDPGameServer.database (UDPGameServer.run trace ugs).1)
    /\ Database.chat_messages (UDPGameServer.database ugs)
         `prefix_of` Database.chat_messages
                       (UDPGameServer.database (UDPGameServer.run trace ugs).1)) as Hrun.
  { induction trace as [|[now e] trace IH]; intros ugs Hb.
    { cbn. split; [done|]. split; [lia|]. split; [done|]. split; [by left | done]. }
    rewrite run_cons.
    pose proof (udp_step_store_grows now e ugs) as (Hs & He & Hc).
    set (ugs1 := (UDPGameServer.step now e ugs).1) in *.
    assert (sessions_below (UDPGameServer.database ugs1)) as Hb1.
    { destruct Hs as [[Hs Hq]|(row & Hs & Hq & _)]; intros id; rewrite Hs, Hq.
      - apply Hb.
      - rewrite lookup_insert. case_decide; [lia|]. intros H'. apply Hb in H'. lia. }
    destruct (IH ugs1 Hb1) as (Hb' & Hle & Hkeep & Hnew & He' & Hc').
    split; [exact Hb'|].
    split; [destruct Hs as [[_ Hq]|(row & _ & Hq & _)]; lia|].
    split.
    { intros id row Hrow. apply Hkeep.
      destruct Hs as [[Hs _]|(row' & Hs & _)]; rewrite Hs; [done|].
      rewrite lookup_insert_ne; [done|]. intros <-.
      assert (is_Some (Database.game_sessions (UDPGameServer.database ugs)
                         !! (Database.seq_game_sessions (UDPGameServer.database ugs) + 1)))
        as H' by (by eexists).
      apply Hb in H'. lia. }
    split.
    { intros id row Hrow. destruct (Hnew id row Hrow) as [H1|(Hr & Hend & Hp)].
      - destruct Hs as [[Hs _]|(row' & Hs & Hq & Hend & Hp)]; rewrite Hs in H1;
          [by left|].
        rewrite lookup_insert in H1. case_decide as Hd; [|by left].
        injection H1 as <-. right. subst id. split; [lia|done].
      - right. split; [|done].
        destruct Hs as [[_ Hq]|(row' & _ & Hq & _)]; lia. }
    split; by etrans. }
  intros ugs Hb. destruct (Hrun ugs Hb) as (Hb' & _ & Hkeep & Hnew & He & Hc).
  split; [exact Hb'|]. split; [exact Hkeep|]. split; [exact Hnew|].
  split; [exact He|]. split; [exact Hc|].
  unfold Database.GetActiveSessionsCount. apply inj_le, map_subseteq_size.
  apply map_filter_subseteq_mono, map_subseteq_spec. exact Hkeep.
Qed.

Lemma datagram_server_ends_no_session_witness :
  sessions_below Database.empty
  /\ Database.GetActiveSessionsCount (UDPGameServer.database two_clients) = 2.
Proof.
  assert (sessions_below (UDPGameServer.database (NewUDPGameServer Database.empty)))
    as Hb.
  { intros id [row Hrow]. cbn in Hrow. by rewrite lookup_empty in Hrow. }
  split; [exact Hb|].
  destruct (datagram_server_ends_no_session two_clients_run _ Hb)
    as (_ & _ & _ & _ & _ & _).
  by vm_compute.
Defined.

(** * Further properties of the stream server *)

(** ** The roster *)

Section RosterInvariant.
Variable P : UUID -> Client.t -> Prop.
Hypothesis P_SendMessage :
  forall id message c, P id c -> P id (Client.SendMessage message c).2.

Definition roster_all (gs : GameState.t) : Prop :=
  forall id c, GameState.clients gs !! id = Some c -> P id c.

Lemma roster_all_send id message gs gs' o :
  GameState.send id message gs = Some (gs', o) -> roster_all gs -> roster_all gs'.
Proof.
  unfold GameState.send. destruct (GameState.clients gs !! id) as [c|] eqn:E.
  - pose proof (P_SendMessage id message c) as HP.
    destruct (Client.SendMessage message c) as [[| |] c']; [| |done];
      intros [= <- <-] Hall id' c''; cbn; rewrite lookup_insert;
      (case_decide; [subst; intros [= <-]; by eauto | by apply Hall]).
  - by intros [= <- <-].
Qed.

Lemma roster_all_send_all ids message :
  forall gs gs' o,
    GameState.send_all ids message gs = Some (gs', o) -> roster_all gs -> roster_all gs'.
Proof.
  induction ids as [|id ids IH]; intros gs gs' o; cbn [GameState.send_all].
  - by intros [= <- <-].
  - intros Hb Hall. apply bind_Some in Hb as (gs1 & o1 & o2 & H1 & H2).
    eapply IH; [exact H2|]. by eapply roster_all_send.
Qed.

Lemma roster_all_broadcastMessage message exclude gs gs' o :
  GameState.broadcastMessage message exclude gs = Some (gs', o) ->
  roster_all gs -> roster_all gs'.
Proof. apply roster_all_send_all. Qed.

Lemma roster_all_broadcastGameState now gs gs' o :
  GameState.broadcastGameState now gs = Some (gs', o) -> roster_all gs -> roster_all gs'.
Proof.
  unfold GameState.broadcastGameState. case_match.
  - apply roster_all_broadcastMessage.
  - by intros [= <- <-].
Qed.

Hypothesis P_NewClient :
  forall id, P id (NewClient id "127.0.0.1:0" (clientName_of id)).
Hypothesis P_UpdatePosition :
  forall id x y c, P id c -> P id (Client.UpdatePosition x y c).
Hypothesis P_AddScore :
  forall id points c, P id c -> P id (Client.AddScore points c).
Hypothesis P_written :
  forall id c, P id c ->
    P id (Client.mk (Client.ID c) (Client.Addr c) (Client.Player c)
            (Client.mkchan (tail (Client.queue (Client.Send c)))
               (Client.closed (Client.Send c)))).

Lemma roster_all_insert gs id c db :
  roster_all gs -> P id c ->
  roster_all (GameState.mk (<[id := c]> (GameState.clients gs)) db).
Proof.
  intros Hall Hc id' c'. cbn. rewrite lookup_insert. case_decide.
  - subst. by intros [= <-].
  - apply Hall.
Qed.

Lemma roster_all_step now e gs gs' o :
  Stream.step now e gs = Some (gs', o) -> roster_all gs -> roster_all gs'.
Proof.
  destruct e as [clientID|clientID message sessionID|clientID sessionID|clientID];
    cbn [Stream.step]; intros Hstep Hall.
  - (* Connect *)
    unfold HandleConnection, HandleClientMessages_connect in Hstep.
    cbn [Database.CreateSession fst] in Hstep. unfold GameState.AddClient in Hstep.
    cbv zeta in Hstep.
    apply bind_Some in Hstep as (gs1 & o1 & o2 & H1 & H2).
    apply bind_Some in H2 as (gs2 & o3 & o4 & H2 & H3).
    eapply roster_all_send; [exact H3|].
    eapply roster_all_broadcastMessage; [exact H2|].
    eapply roster_all_send; [exact H1|].
    apply roster_all_insert; [exact Hall | apply P_NewClient].
  - (* Receive *)
    unfold GameState.HandleMessage in Hstep.
    destruct (GameState.clients gs !! clientID) as [c|] eqn:E;
      [|by injection Hstep as <- _].
    repeat (case_match; try (by injection Hstep as <- _)); subst.
    + apply bind_Some in Hstep as (gs1 & o1 & o2 & Hb1 & Hb2).
      eapply roster_all_broadcastGameState; [exact Hb2|].
      eapply roster_all_broadcastMessage; [exact Hb1|].
      apply roster_all_insert; [exact Hall|]. apply P_UpdatePosition. by eapply Hall.
    + unfold GameState.handlePlayerAction in Hstep.
      repeat (case_match; try done; try (by injection Hstep as <- _)).
      injection Hstep as <- _.
      apply roster_all_insert; [exact Hall|]. apply P_AddScore. eapply Hall.
      eassumption.
    + eapply roster_all_broadcastMessage; [exact Hstep|]. exact Hall.
  - (* Disconnect *)
    unfold GameState.RemoveClient in Hstep.
    assert (roster_all
              match sessionID with
              | Some id =>
                  GameState.with_database (fun d => (Database.EndSession now id d).2) gs
              | None => gs
              end) as Hall' by (by destruct sessionID).
    destruct sessionID as [sid|]; cbn [GameState.with_database GameState.clients] in Hstep.
    all: destruct (GameState.clients gs !! clientID) as [c|] eqn:E;
      [|injection Hstep as <- _; exact Hall'].
    all: apply bind_Some in Hstep as (gs1 & o1 & o2 & H1 & H2).
    all: destruct (Client.closed (Client.Send c)); [done|]; injection H2 as <- _.
    all: eapply roster_all_broadcastMessage; [exact H1|].
    all: intros id' c'; cbn; rewrite lookup_delete; case_decide; [done|]; apply Hall.
  - (* Written *)
    injection Hstep as <- _. intros id c. cbn. rewrite lookup_alter.
    case_decide; [|apply Hall]. subst.
    destruct (GameState.clients gs !! id) as [c0|] eqn:E; [|done].
    cbn. intros [= <-]. apply P_written. by eapply Hall.
Qed.

Lemma roster_all_reachable gs : Stream.reachable gs -> roster_all gs.
Proof.
  intros (database & trace & Hrun).
  assert (Hgen : forall trace gs0, roster_all gs0 ->
                   Stream.run trace gs0 = Some gs -> roster_all gs).
  { clear Hrun. intros trace'. induction trace' as [|[now e] trace' IH];
      intros gs0 Hh; cbn.
    - by intros [= <-].
    - destruct (Stream.step now e gs0) as [[gs1 o]|] eqn:E; [|done].
      apply IH. by eapply roster_all_step. }
  eapply Hgen; [|exact Hrun]. intros id c. by cbn.
Qed.
End RosterInvariant.

(** X9: in every state the stream server can reach, a client of the
    roster sits under its own id, its player carries that id and the name
    "Player_" followed by the first eight characters of the id, its
    address is the placeholder "127.0.0.1:0" that [HandleConnection] gives
    to every connection, and at most 256 frames wait in its outbound
    channel. *)
Theorem roster_clients_well_formed (gs : GameState.t) :
  Stream.reachable gs ->
  forall id c, GameState.clients gs !! id = Some c ->
    Client.ID c = id
    /\ Player.ID (Client.Player c) = id
    /\ Player.Name (Client.Player c) = "Player_" +:+ prefix_bytes 8 (uuid_String id)
    /\ Client.Addr c = "127.0.0.1:0"
    /\ (length (Client.queue (Client.Send c)) <= Client.capacity)%nat.
Proof.
  apply (roster_all_reachable
           (fun id c =>
              Client.ID c = id
              /\ Player.ID (Client.Player c) = id
              /\ Player.Name (Client.Player c)
                 = "Player_" +:+ prefix_bytes 8 (uuid_String id)
              /\ Client.Addr c = "127.0.0.1:0"
              /\ (length (Client.queue (Client.Send c)) <= Client.capacity)%nat)).
  - intros id message c (H1 & H2 & H3 & H4 & H5). unfold Client.SendMessage.
    destruct (Client.closed (Client.Send c)); [done|].
    destruct (length (Client.queue (Client.Send c)) <? Client.capacity)%nat eqn:E;
      cbn; [|done].
    split; [done|]. split; [done|]. split; [done|]. split; [done|].
    rewrite length_app. cbn. apply Nat.ltb_lt in E. lia.
  - intros id. cbn. split; [done|]. split; [done|]. split; [done|]. split; [done|].
    unfold Client.capacity. lia.
  - by intros id x y c.
  - by intros id points c.
  - intros id c (H1 & H2 & H3 & H4 & H5). cbn.
    split; [done|]. split; [done|]. split; [done|]. split; [done|].
    destruct (Client.queue (Client.Send c)); cbn in *; lia.
Qed.

Lemma roster_clients_well_formed_witness :
  Stream.reachable one_stream_client
  /\ GameState.clients one_stream_client !! player1 <> None
  /\ forall c, GameState.clients one_stream_client !! player1 = Some c ->
       Player.Name (Client.Player c) = "Player_11111111".
Proof.
  assert (Stream.reachable one_stream_client) as Hr.
  { exists Database.empty, [(5 * Second, Stream.Connect player1)]. by vm_compute. }
  split; [exact Hr|]. split; [by vm_compute|].
  intros c Hc.
  destruct (roster_clients_well_formed one_stream_client Hr player1 c Hc)
    as (_ & _ & -> & _).
  by vm_compute.
Defined.

(** ** A full outbound channel *)





(** ** Moves and chats over the stream *)

(** every channel of the roster is open *)
Definition all_open (gs : GameState.t) : Prop :=
  forall id c, GameState.clients gs !! id = Some c ->
    Client.closed (Client.Send c) = false.




Lemma one_stream_client_open : all_open one_stream_client.
Proof.
  intros id c Hc.
  assert (Hall : map_Forall (fun _ c => Client.closed (Client.Send c) = false)
                   (GameState.clients one_stream_client)).
  { apply map_Forall_to_list. vm_compute. repeat constructor. }
  exact (Hall id c Hc).
Qed.



(** X12: a Chat frame of a roster client that carries the client's own id
    and a text is, when every channel of the roster is open, stored as one
    chat row and one chat event with the session of the connection and sent
    to every client of the roster, the sender included (over datagrams the
    sender gets the acknowledgement instead); no player changes. *)
Theorem stream_chat_reaches_everyone (now : Time) (clientID : UUID)
    (message : GameMessage.t) (data : gmap string GoValue) (text : string)
    (sessionID : option Z) (gs : GameState.t) :
  is_Some (GameState.clients gs !! clientID) ->
  GameMessage.Type_ message = "Chat" ->
  GameMessage.Data message = Untyped (GMap data) ->
  payload_player_id message = Some clientID ->
  data !! "message" = Some (GString text) ->
  all_open gs ->
  let chat := NewChatMessage clientID text in
  let db := GameState.database gs in
  exists gs',
    GameState.HandleMessage now clientID message sessionID gs
    = Some (gs', map (fun id => (id, chat)) (map_to_list (GameState.clients gs)).*1)
    /\ same_players (GameState.clients gs') (GameState.clients gs)
    /\ Database.chat_messages (GameState.database gs')
       = (Database.chat_messages db
          ++ [ChatMessage.mk (Database.seq_chat_messages db + 1) (uuid_String clientID)
                sessionID text (Unix now)])%list
    /\ Database.player_events (GameState.database gs')
       = (Database.player_events db
          ++ [PlayerEvent.mk (Database.seq_player_events db + 1) (uuid_String clientID)
                sessionID "chat" (Some (marshal_GameMessage chat)) (Unix now)])%list
    /\ Database.players (GameState.database gs') = Database.players db
    /\ Database.game_sessions (GameState.database gs') = Database.game_sessions db.
Proof.
  intros [client Hc] Hty Hdata Hpid Htext Hopen. cbv zeta.
  unfold GameState.HandleMessage. rewrite Hc, Hty.
  rewrite decide_False by done. rewrite decide_False by done.
  rewrite decide_True by done.
  unfold payload_player_id in Hpid. rewrite Hdata in Hpid |- *.
  destruct (data !! "player_id") as [[| | |s| |]|]; try done.
  rewrite Hpid. rewrite decide_True by done. rewrite Htext.
  match goal with
  | |- context [GameState.broadcastMessage ?m None ?g] =>
      destruct (broadcastMessage_open m None g) as (gs' & Hb & Hdb & Hsame & _)
  end.
  { intros id c Hid _. by eapply Hopen. }
  exists gs'. split.
  - rewrite Hb. cbn [GameState.clients GameState.excluded]. f_equal. f_equal. f_equal.
    apply filter_all. by apply Forall_forall.
  - split; [exact Hsame|]. by rewrite Hdb.
Qed.

Lemma stream_chat_reaches_everyone_witness :
  exists gs',
    GameState.HandleMessage (6 * Second) player1
      (GameMessage.mk "Chat"
         (Untyped (GMap (<["message" := GString "hi"]>
                         (<["player_id" := GString (uuid_String player1)]> ∅)))))
      (Some 1) one_stream_client
    = Some (gs', [(player1, NewChatMessage player1 "hi")]).
Proof.
  destruct (stream_chat_reaches_everyone (6 * Second) player1
              (GameMessage.mk "Chat"
                 (Untyped (GMap (<["message" := GString "hi"]>
                                 (<["player_id" := GString (uuid_String player1)]> ∅)))))
              (<["message" := GString "hi"]>
                 (<["player_id" := GString (uuid_String player1)]> ∅))
              "hi" (Some 1) one_stream_client)
    as (gs' & Hgs & _).
  - vm_compute. by eexists.
  - reflexivity.
  - reflexivity.
  - by vm_compute.
  - apply lookup_insert_eq.
  - exact one_stream_client_open.
  - exists gs'. rewrite Hgs. by vm_compute.
Defined.

(** ** The end of a connection *)



(** * Further properties of the store *)

Lemma map_size_filter_split {K A} `{Countable K} (P : K * A -> Prop)
    `{!forall x, Decision (P x)} (m : gmap K A) :
  size m = (size (filter P m) + size (filter (fun x => ~ P x) m))%nat.
Proof.
  rewrite <- map_size_disj_union by apply map_disjoint_filter_complement.
  by rewrite map_filter_union_complement.
Qed.

Lemma stale_active now hours r : Database.stale now hours r = true -> Database.active r = true.
Proof. unfold Database.stale. destruct (Database.active r); [done | by cbn]. Qed.

Lemma active_end_row now r : Database.active (Database.end_row now r) = false.
Proof. destruct r as [i p s [e|] pr ip]; by cbn. Qed.

(** X14: CleanupOldSessions with a number of hours that is not negative
    ends, with the current time, exactly the open sessions that started
    more than that many hours ago; every other session, the closed ones
    with their end included, and every other table stay as they are.  The
    number it returns is the number of sessions it has ended, which is the
    drop of the number of open sessions, and a second call at the same
    instant finds nothing to end. *)
Theorem cleanup_ends_old_open_sessions (now : Time) (hours : Z) (d : Database.t) :
  0 <= hours ->
  let n := (Database.CleanupOldSessions now hours d).1 in
  let d' := (Database.CleanupOldSessions now hours d).2 in
  (forall id r, Database.game_sessions d !! id = Some r ->
     Database.game_sessions d' !! id
     = Some (match GameSession.SessionEnd r with
             | None =>
                 if GameSession.SessionStart r + hours * 3600 <? Unix now
                 then GameSession.mk (GameSession.ID r) (GameSession.PlayerID r)
                        (GameSession.SessionStart r) (Some (Unix now))
                        (GameSession.Protocol r) (GameSession.ClientIP r)
                 else r
             | Some _ => r
             end))
  /\ (forall id, Database.game_sessions d !! id = None ->
        Database.game_sessions d' !! id = None)
  /\ Database.players d' = Database.players d
  /\ Database.player_events d' = Database.player_events d
  /\ Database.chat_messages d' = Database.chat_messages d
  /\ n = Database.GetActiveSessionsCount d - Database.GetActiveSessionsCount d'
  /\ 0 <= n
  /\ Database.CleanupOldSessions now hours d' = (0, d').
Proof.
  intros Hh. cbv zeta. cbn [Database.CleanupOldSessions fst snd].
  split.
  { intros id r Hr. cbn. rewrite lookup_fmap, Hr. cbn. f_equal.
    unfold Database.stale, Database.active, Database.end_row, Database.datetime_now.
    rewrite (proj2 (Z.leb_le _ _) Hh).
    destruct (GameSession.SessionEnd r); [done|]. cbn. by case_match. }
  split; [intros id Hr; cbn; by rewrite lookup_fmap, Hr|].
  split; [done|]. split; [done|]. split; [done|].
  assert (size (filter (fun kr : Z * GameSession.t => Database.active kr.2 = true)
                  (Database.game_sessions d))
          = (size (filter (fun kr : Z * GameSession.t =>
                             Database.stale now hours kr.2 = true)
                     (Database.game_sessions d))
             + size (filter (fun kr : Z * GameSession.t => Database.active kr.2 = true)
                       ((fun r => if Database.stale now hours r
                                  then Database.end_row now r else r)
                          <$> Database.game_sessions d)))%nat) as Hsize.
  { rewrite (map_size_filter_split
               (fun kr : Z * GameSession.t => Database.stale now hours kr.2 = true)
               (filter (fun kr : Z * GameSession.t => Database.active kr.2 = true)
                  (Database.game_sessions d))).
    rewrite !map_filter_filter.
    rewrite (map_filter_fmap (M := gmap Z)), map_size_fmap. f_equal.
    - f_equal. apply map_filter_ext. intros id r _. cbn.
      split; [tauto|]. intros Hs. split; [done|]. by eapply stale_active.
    - f_equal. apply map_filter_ext. intros id r _. cbn.
      destruct (Database.stale now hours r) eqn:Es.
      + rewrite active_end_row. split; [intros [? ?]; done | done].
      + split; [tauto|]. intros Ha. split; [by intros ? | done]. }
  split.
  { unfold Database.GetActiveSessionsCount. cbn [Database.with_game_sessions
      Database.game_sessions]. lia. }
  split; [lia|].
  apply injective_projections; cbn [Database.CleanupOldSessions fst snd].
  - assert (filter (fun kr : Z * GameSession.t => Database.stale now hours kr.2 = true)
              (Database.game_sessions
                 (Database.with_game_sessions
                    (fmap (fun r => if Database.stale now hours r
                                    then Database.end_row now r else r)) d)) = ∅) as ->.
    { apply map_empty_filter_2. intros id r. cbn. rewrite lookup_fmap.
      destruct (Database.game_sessions d !! id) as [r0|]; [|done]. cbn.
      intros [= <-]. destruct (Database.stale now hours r0) eqn:Es.
      - intros Hs. apply stale_active in Hs. by rewrite active_end_row in Hs.
      - by rewrite Es. }
    done.
  - destruct d as [pl gsn sq ev sev ch sch]. unfold Database.with_game_sessions.
    cbn [Database.players Database.game_sessions Database.seq_game_sessions
         Database.player_events Database.seq_player_events Database.chat_messages
         Database.seq_chat_messages].
    match goal with
    | |- Database.mk _ ?a _ _ _ _ _ = Database.mk _ ?b _ _ _ _ _ =>
        assert (a = b) as ->; [|done]
    end.
    apply map_eq. intros id. rewrite !lookup_fmap.
    destruct (gsn !! id) as [r|]; [|done]. cbn. f_equal.
    destruct (Database.stale now hours r) eqn:Es; [|by rewrite Es].
    destruct (Database.stale now hours (Database.end_row now r)) eqn:Es'; [|done].
    apply stale_active in Es'. by rewrite active_end_row in Es'.
Qed.

Lemma cleanup_ends_old_open_sessions_witness :
  0 <= 1
  /\ (Database.CleanupOldSessions (2 * 3600 * Second) 1
        (UDPGameServer.database two_clients)).1 = 2
  /\ Database.GetActiveSessionsCount
       (Database.CleanupOldSessions (2 * 3600 * Second) 1
          (UDPGameServer.database two_clients)).2 = 0.
Proof.
  assert (0 <= 1) as Hh by lia.
  split; [exact Hh|].
  destruct (cleanup_ends_old_open_sessions (2 * 3600 * Second) 1
              (UDPGameServer.database two_clients) Hh)
    as (_ & _ & _ & _ & _ & Hn & _).
  split; [rewrite Hn|]; by vm_compute.
Defined.




(** * Actions, registration and the number of clients *)

(** X17: a datagram action from an endpoint whose client carries the
    player id of the payload is always acknowledged, whatever the action
    is, and nothing else is sent.  An attack only logs an attack event
    without data; a pickup writes the new score to the row of the player,
    if there is one, so that the stored score is the score in memory, and
    logs a pickup event without data; any other action leaves the server
    as it is.  The events carry the session of the client. *)
Theorem datagram_action_is_acknowledged_and_logged (now : Time) (addr : UDPAddr.t)
    (playerID : UUID) (action : string) (data : option GoValue) (sequence : Z)
    (ugs : UDPGameServer.t) (uc : UDPClient.t) :
  UDPGameServer.clients ugs !! UDPAddr.String_ addr = Some uc ->
  UDPClient.ID uc = playerID ->
  let a := UDPAddr.String_ addr in
  let r := UDPGameServer.handlePlayerAction now addr playerID action data sequence ugs in
  let db := UDPGameServer.database ugs in
  let db' := UDPGameServer.database r.1 in
  let event kind :=
    PlayerEvent.mk (Database.seq_player_events db + 1) (uuid_String playerID)
      (UDPClient.SessionID uc) kind None (Unix now) in
  r.2 = [(a, NewUDPPacket now 0 (NewAckMessage sequence) false)]
  /\ UDPGameServer.clientByID r.1 = UDPGameServer.clientByID ugs
  /\ Database.game_sessions db' = Database.game_sessions db
  /\ Database.chat_messages db' = Database.chat_messages db
  /\ (action = "attack" ->
        UDPGameServer.clients r.1 = UDPGameServer.clients ugs
        /\ Database.players db' = Database.players db
        /\ Database.player_events db'
           = (Database.player_events db ++ [event "attack"])%list)
  /\ (action = "pickup" ->
        Database.player_events db'
        = (Database.player_events db ++ [event "pickup"])%list
        /\ (forall other, other <> uuid_String playerID ->
              Database.players db' !! other = Database.players db !! other)
        /\ (is_Some (Database.players db !! uuid_String playerID) ->
            exists row uc',
              Database.players db' !! uuid_String playerID = Some row
              /\ UDPGameServer.clients r.1 !! a = Some uc'
              /\ DBPlayer.Score row = Player.Score (UDPClient.Player uc')
              /\ DBPlayer.Score row = wrap32 (Player.Score (UDPClient.Player uc) + 10))
        /\ (Database.players db !! uuid_String playerID = None ->
            Database.players db' = Database.players db))
  /\ (action <> "attack" -> action <> "pickup" -> r.1 = ugs).
Proof.
  intros Hc Hid. cbv zeta. unfold UDPGameServer.handlePlayerAction.
  rewrite Hc. rewrite decide_True by done. cbv zeta. cbn [fst snd].
  split; [done|].
  destruct (decide (action = "attack")) as [->|Hna].
  { cbn. split; [done|]. split; [done|]. split; [done|]. split; [done|].
    split; [done|]. done. }
  destruct (decide (action = "pickup")) as [->|Hnp].
  2:{ split; [done|]. split; [done|]. split; [done|]. split; [done|].
      split; [done|]. done. }
  cbn. split; [done|]. split; [done|]. split; [done|]. split; [done|].
  split; [|done]. intros _. split; [done|].
  split; [intros other Hne; by rewrite lookup_alter_ne|].
  split.
  - intros [row Hrow]. eexists _, _. rewrite lookup_alter_eq, Hrow, lookup_insert_eq.
    cbn. split; [done|]. split; [done|]. done.
  - intros Hnone. apply map_eq. intros k. rewrite lookup_alter.
    case_decide; [subst; by rewrite Hnone | done].
Qed.

Lemma datagram_action_is_acknowledged_and_logged_witness :
  UDPGameServer.clients two_clients !! UDPAddr.String_ endpoint1
  = Some (client_at two_clients endpoint1)
  /\ UDPClient.ID (client_at two_clients endpoint1) = player1
  /\ DBPlayer.Score
       <$> Database.players
             (UDPGameServer.database
                (UDPGameServer.handlePlayerAction (4 * Second) endpoint1 player1
                   "pickup" None 8 two_clients).1) !! uuid_String player1
     = Some 10.
Proof.
  assert (UDPGameServer.clients two_clients !! UDPAddr.String_ endpoint1
          = Some (client_at two_clients endpoint1)) as Hc by (by vm_compute).
  split; [exact Hc|]. split; [reflexivity|].
  destruct (datagram_action_is_acknowledged_and_logged (4 * Second) endpoint1 player1
              "pickup" None 8 two_clients _ Hc eq_refl)
    as (_ & _ & _ & _ & _ & Hpick & _).
  destruct (Hpick eq_refl) as (_ & _ & Hrow & _).
  destruct Hrow as (row & uc' & -> & _ & _ & Hscore).
  { vm_compute. by eexists. }
  cbn. rewrite Hscore. by vm_compute.
Defined.

Lemma send_database id message gs gs' o :
  GameState.send id message gs = Some (gs', o) ->
  GameState.database gs' = GameState.database gs.
Proof.
  unfold GameState.send. destruct (GameState.clients gs !! id) as [c|].
  - destruct (Client.SendMessage message c) as [[| |] c']; [| |done];
      by intros [= <- <-].
  - by intros [= <- <-].
Qed.

Lemma send_all_database ids message :
  forall gs gs' o,
    GameState.send_all ids message gs = Some (gs', o) ->
    GameState.database gs' = GameState.database gs.
Proof.
  induction ids as [|id ids IH]; intros gs gs' o; cbn [GameState.send_all].
  - by intros [= <- <-].
  - intros Hb. apply bind_Some in Hb as (gs1 & o1 & o2 & Hs1 & Hs2).
    rewrite (IH _ _ _ Hs2). by eapply send_database.
Qed.

Lemma same_players_size m1 m2 : same_players m1 m2 -> size m1 = size m2.
Proof.
  intros Hs. rewrite <- (map_size_fmap Client.Player m1),
    <- (map_size_fmap Client.Player m2). f_equal.
  apply map_eq. intros id. rewrite !lookup_fmap. apply Hs.
Qed.

(** X18: accepting a stream connection, when no other client of the roster
    has a closed channel, opens a session over "websocket" whose client
    address is the placeholder "127.0.0.1:0", writes the row of the new
    player (position 0,0, health 100, score 0), logs a join event of that
    session with the PlayerJoin as data, and puts the client on the roster:
    the number of clients goes up by one for an id that is not on it. *)
Theorem stream_registration_is_recorded (now : Time) (clientID : UUID)
    (gs : GameState.t) :
  (forall id c, GameState.clients gs !! id = Some c -> id <> clientID ->
                Client.closed (Client.Send c) = false) ->
  let name := "Player_" +:+ prefix_bytes 8 (uuid_String clientID) in
  let db := GameState.database gs in
  let session := Database.seq_game_sessions db + 1 in
  exists gs' calls,
    HandleConnection now clientID gs = Some (gs', calls)
    /\ same_players (GameState.clients gs')
         (<[clientID := NewClient clientID "127.0.0.1:0" name]> (GameState.clients gs))
    /\ (GameState.clients gs !! clientID = None ->
        GameState.GetClientCount gs' = S (GameState.GetClientCount gs))
    /\ Database.game_sessions (GameState.database gs')
       = <[session := GameSession.mk session (uuid_String clientID) (Unix now) None
                        "websocket" (Some "127.0.0.1:0")]> (Database.game_sessions db)
    /\ Database.players (GameState.database gs') !! uuid_String clientID
       = Some (DBPlayer.mk (uuid_String clientID) name 0 0 100 0
                 (default (Unix now)
                    (DBPlayer.CreatedAt <$> Database.players db !! uuid_String clientID))
                 (Unix now) (Unix now))
    /\ Database.player_events (GameState.database gs')
       = (Database.player_events db
          ++ [PlayerEvent.mk (Database.seq_player_events db + 1) (uuid_String clientID)
                (Some session) "join"
                (Some (marshal_GameMessage (NewPlayerJoinMessage clientID name)))
                (Unix now)])%list
    /\ Database.chat_messages (GameState.database gs') = Database.chat_messages db.
Proof.
  intros Hopen. cbv zeta.
  unfold HandleConnection, HandleClientMessages_connect. cbn [Database.CreateSession fst].
  match goal with
  | |- context [GameState.AddClient now ?c ?s ?g] =>
      destruct (AddClient_sends now c s g) as (gs' & Hadd & _); [done | exact Hopen|];
      set (client := c) in *; set (gs0 := g) in *
  end.
  eexists gs', _. split; [exact Hadd|].
  unfold GameState.AddClient in Hadd. cbv zeta in Hadd.
  apply bind_Some in Hadd as (gs1 & o1 & o2 & Hs1 & Hadd).
  apply bind_Some in Hadd as (gs2 & o3 & o4 & Hs2 & Hs3).
  assert (same_players (GameState.clients gs')
            (<[clientID := client]> (GameState.clients gs))) as Hsame.
  { eapply same_players_trans; [by eapply send_players|].
    eapply same_players_trans; [by eapply broadcastMessage_players|].
    apply send_players in Hs1. exact Hs1. }
  split; [exact Hsame|].
  split.
  { intros Hnew. unfold GameState.GetClientCount.
    rewrite (same_players_size _ _ Hsame). by rewrite map_size_insert_None. }
  unfold GameState.sendGameStateToClient in Hs3.
  rewrite (send_database _ _ _ _ _ Hs3), (send_all_database _ _ _ _ _ Hs2),
    (send_database _ _ _ _ _ Hs1).
  cbn. split; [done|]. split; [|done].
  rewrite lookup_insert_eq. f_equal. unfold Database.datetime_now.
  by destruct (Database.players (GameState.database gs) !! uuid_String clientID).
Qed.

Lemma stream_registration_is_recorded_witness :
  exists gs' calls,
    HandleConnection (7 * Second) player2 one_stream_client = Some (gs', calls)
    /\ GameState.GetClientCount gs' = 2%nat
    /\ GameSession.Protocol
         <$> Database.game_sessions (GameState.database gs') !! 2 = Some "websocket".
Proof.
  destruct (stream_registration_is_recorded (7 * Second) player2 one_stream_client)
    as (gs' & calls & Hgs & _ & Hn & Hs & _).
  { intros id c Hc _. by eapply one_stream_client_open. }
  exists gs', calls. split; [exact Hgs|].
  split; [rewrite Hn; by vm_compute|]. rewrite Hs. by vm_compute.
Defined.

Lemma updated_size F (m m' : gmap string UDPClient.t) : updated F m m' -> size m' = size m.
Proof.
  intros Hup.
  assert (m' = map_imap (fun a c => Some (F a c)) m) as ->.
  { apply map_eq. intros a. rewrite Hup, map_lookup_imap. by destruct (m !! a). }
  rewrite <- !length_map_to_list, map_to_list_imap_total. apply length_map.
Qed.

(** X19: the number of clients of the datagram server changes in two ways
    only: the heartbeat of an endpoint that is not in the table adds one,
    and a cleanup tick takes off the number of clients that were last seen
    more than 30 s ago.  Every other step, a heartbeat of a known endpoint
    included, leaves it. *)
Theorem client_count_changes_by_admission_and_cleanup (now : Time)
    (e : UDPGameServer.event) (ugs : UDPGameServer.t) :
  let n := UDPGameServer.GetClientCount ugs in
  let n' := UDPGameServer.GetClientCount (UDPGameServer.step now e ugs).1 in
  let silent := size (filter (fun e : string * UDPClient.t =>
                                30 * Second < now - UDPClient.LastSeen e.2)
                        (UDPGameServer.clients ugs)) in
  match e with
  | UDPGameServer.Heartbeat addr _ _ =>
      n' = match UDPGameServer.clients ugs !! UDPAddr.String_ addr with
           | Some _ => n
           | None => S n
           end
  | UDPGameServer.CleanupTick =>
      (n' + silent)%nat = n
  | _ => n' = n
  end.
Proof.
  cbv zeta. unfold UDPGameServer.GetClientCount.
  destruct (CleanupTick_or_not e) as [->|He].
  - cbn [UDPGameServer.step fst].
    rewrite (map_size_filter_split
               (fun e : string * UDPClient.t => 30 * Second < now - UDPClient.LastSeen e.2)
               (UDPGameServer.clients ugs)).
    rewrite Nat.add_comm. f_equal. f_equal. apply map_eq. intros a.
    rewrite startCleanupTask_clients, map_lookup_filter.
    destruct (UDPGameServer.clients ugs !! a) as [c|]; [|done]. cbn.
    unfold UDPClient.IsTimeout.
    destruct (30 * Second <? now - UDPClient.LastSeen c) eqn:E.
    + apply Z.ltb_lt in E. by rewrite option_guard_False by (intros Hn; by apply Hn).
    + apply Z.ltb_ge in E. rewrite option_guard_True; [done|]. cbn. lia.
  - destruct (step_shape now e ugs He) as [(F & _ & Hup) _].
    apply updated_size in Hup. rewrite Hup.
    destruct e as [addr pid seq|addr seq|addr pid x y seq|addr pid action data seq
                  |addr pid message seq| | |wrote]; try done.
    cbn [admitted].
    destruct (UDPGameServer.clients ugs !! UDPAddr.String_ addr) as [c|] eqn:E; [done|].
    by rewrite map_size_insert_None.
Qed.

(** ** Frames the stream server ignores *)

(** X20: HandleMessage does nothing at all, no change of the roster or
    the store and no send, for a frame of a client that is not on the
    roster, for a frame whose type is none of PlayerMove, PlayerAction and
    Chat, for a frame whose data is not a JSON object (the typed payloads
    the server builds itself among them), for a move whose x or y is not a
    number, for an action whose action is not a string, and for a chat
    whose message is not a string. *)
Theorem malformed_frames_are_ignored (now : Time) (clientID : UUID)
    (message : GameMessage.t) (sessionID : option Z) (gs : GameState.t) :
  GameState.clients gs !! clientID = None
  \/ (GameMessage.Type_ message <> "PlayerMove"
      /\ GameMessage.Type_ message <> "PlayerAction"
      /\ GameMessage.Type_ message <> "Chat")
  \/ (forall data, GameMessage.Data message <> Untyped (GMap data))
  \/ (exists data, GameMessage.Data message = Untyped (GMap data)
        /\ ((GameMessage.Type_ message = "PlayerMove"
             /\ ((forall x, data !! "x" <> Some (GFloat64 x))
                 \/ (forall y, data !! "y" <> Some (GFloat64 y))))
            \/ (GameMessage.Type_ message = "PlayerAction"
                /\ forall action, data !! "action" <> Some (GString action))
            \/ (GameMessage.Type_ message = "Chat"
                /\ forall text, data !! "message" <> Some (GString text)))) ->
  GameState.HandleMessage now clientID message sessionID gs = Some (gs, []).
Proof.
  unfold GameState.HandleMessage.
  intros [Hnone|[(Hm & Ha & Hc)|[Hdata|(data & Hdata & Hbad)]]].
  - by rewrite Hnone.
  - destruct (GameState.clients gs !! clientID); [|done].
    by rewrite !decide_False.
  - destruct (GameState.clients gs !! clientID); [|done].
    destruct (GameMessage.Data message) as [| | | | | | | | |[| | | | |m]];
      try (by repeat case_decide).
    by destruct (Hdata m).
  - destruct (GameState.clients gs !! clientID); [|done]. rewrite Hdata.
    destruct Hbad as [(-> & Hxy)|[(-> & Hact)|(-> & Htext)]].
    + rewrite decide_True by done.
      destruct (data !! "player_id") as [[| | |s| |]|]; try done.
      destruct (uuid_Parse s); [|done]. case_decide; [|done].
      destruct (data !! "x") as [[| |x| | |]|] eqn:Ex; try done.
      destruct (data !! "y") as [[| |y| | |]|] eqn:Ey; try done.
      destruct Hxy as [Hx|Hy]; [by destruct (Hx x) | by destruct (Hy y)].
    + rewrite decide_False by done. rewrite decide_True by done.
      destruct (data !! "player_id") as [[| | |s| |]|]; try done.
      destruct (uuid_Parse s); [|done]. case_decide; [|done].
      destruct (data !! "action") as [[| | |a| |]|] eqn:Ea; try done.
      by destruct (Hact a).
    + rewrite decide_False by done. rewrite decide_False by done.
      rewrite decide_True by done.
      destruct (data !! "player_id") as [[| | |s| |]|]; try done.
      destruct (uuid_Parse s); [|done]. case_decide; [|done].
      destruct (data !! "message") as [[| | |text| |]|] eqn:Et; try done.
      by destruct (Htext text).
Qed.

Lemma malformed_frames_are_ignored_witness :
  GameState.HandleMessage (6 * Second) player1
    (GameMessage.mk "Ping" (Untyped (GMap ∅))) (Some 1) one_stream_client
  = Some (one_stream_client, []).
Proof.
  apply malformed_frames_are_ignored. right. left. by cbn.
Defined.

(** * Printed ids *)









(** * Heartbeats of a known endpoint *)

(** X22: a heartbeat from an endpoint that is in the client table is
    answered with an acknowledgement of its sequence number and sets the
    time the client was last seen and the sequence number it has
    acknowledged; nothing else of the client, no other client, neither the
    reverse index nor the store changes.  The player id of the heartbeat is
    not looked at: a heartbeat with the id of another player does the same
    (moves, actions and chats are dropped in that case), and it keeps the
    client in the table through every cleanup tick of the next 30 s. *)
Theorem heartbeat_of_known_endpoint_ignores_id (now : Time) (addr : UDPAddr.t)
    (playerID playerID' : UUID) (sequence : Z) (ugs : UDPGameServer.t)
    (uc : UDPClient.t) :
  UDPGameServer.clients ugs !! UDPAddr.String_ addr = Some uc ->
  let r := UDPGameServer.handleHeartbeat now addr playerID sequence ugs in
  r.2 = [(UDPAddr.String_ addr, NewUDPPacket now 0 (NewAckMessage sequence) false)]
  /\ UDPGameServer.clients r.1
     = <[UDPAddr.String_ addr :=
           UDPClient.mk (UDPClient.ID uc) (UDPClient.Addr uc) (UDPClient.Player uc) now
             (UDPClient.Sequence uc) sequence (UDPClient.PendingAcks uc)
             (UDPClient.SessionID uc)]> (UDPGameServer.clients ugs)
  /\ UDPGameServer.clientByID r.1 = UDPGameServer.clientByID ugs
  /\ UDPGameServer.database r.1 = UDPGameServer.database ugs
  /\ UDPGameServer.handleHeartbeat now addr playerID' sequence ugs = r
  /\ (forall now', now' - now <= 30 * Second ->
        is_Some (UDPGameServer.clients
                   (UDPGameServer.step now' UDPGameServer.CleanupTick r.1).1
                   !! UDPAddr.String_ addr)).
Proof.
  intros Hc. cbv zeta. unfold UDPGameServer.handleHeartbeat. cbv zeta. rewrite Hc.
  cbn [fst snd]. split; [done|]. split; [done|]. split; [done|]. split; [done|].
  split; [done|]. intros now' Hnow'. cbn [UDPGameServer.step fst].
  rewrite startCleanupTask_clients. cbn. rewrite lookup_insert_eq.
  unfold UDPClient.IsTimeout. cbn.
  rewrite (proj2 (Z.ltb_ge _ _)) by lia. by eexists.
Qed.

Lemma heartbeat_of_known_endpoint_ignores_id_witness :
  UDPGameServer.clients two_clients !! UDPAddr.String_ endpoint1
  = Some (client_at two_clients endpoint1)
  /\ UDPClient.LastSeen
       (client_at (UDPGameServer.handleHeartbeat (20 * Second) endpoint1 player2 4
                     two_clients).1 endpoint1) = 20 * Second.
Proof.
  assert (UDPGameServer.clients two_clients !! UDPAddr.String_ endpoint1
          = Some (client_at two_clients endpoint1)) as Hc by (by vm_compute).
  split; [exact Hc|].
  destruct (heartbeat_of_known_endpoint_ignores_id (20 * Second) endpoint1 player2
              player1 4 two_clients _ Hc) as (_ & Hcl & _).
  unfold client_at. rewrite Hcl, lookup_insert_eq. reflexivity.
Defined.
